(** * MedSynQ: a shallow embedding of [server.py]

    The request handler of the MedSynQ server is embedded as pure functions
    over an explicit state: the SQLite database (three tables, rows kept in
    rowid order) and the process-wide [SESSIONS] dictionary (an
    insertion-ordered Python [dict], kept as an association list because the
    logout loop depends on the iteration order).

    What the handler gets from outside is taken as input:
    - the path component of the request target ([urllib.parse.urlparse]);
    - the value of the [Cookie] header, if any;
    - the form produced by [parse_post_data] ([urllib.parse.parse_qs]);
    - the token [uuid.uuid4()] returns during the request;
    - the cookie parser [http.cookies.SimpleCookie.load], the file system,
      the directory of [server.py] and [guess_type], which are parameters
      of the development.

    Python [str] values are [string]s; a character stands for the code point
    of the same number (0 to 255). Exceptions are values of [outcome]. *)

From stdpp Require Import base option list strings gmap.
From Stdlib Require Import ZArith Ascii String.

Local Open Scope Z_scope.
Local Open Scope string_scope.
Local Open Scope list_scope.

(** ** Python strings *)

(** [str.isspace] on one code point below 256: TAB..CR, FS..US, space,
    NEL and NBSP. *)
Definition is_space (c : ascii) : bool :=
  let n := N_of_ascii c in
  ((9 <=? n) && (n <=? 13) || (28 <=? n) && (n <=? 32) ||
   (n =? 133) || (n =? 160))%N.

(** Truth value of a [str]: only the empty string is false. *)
Definition truthy (s : string) : bool :=
  match s with
  | EmptyString => false
  | String _ _ => true
  end.

Fixpoint lstrip (s : string) : string :=
  match s with
  | EmptyString => EmptyString
  | String c s' => if is_space c then lstrip s' else s
  end.

Fixpoint rstrip (s : string) : string :=
  match s with
  | EmptyString => EmptyString
  | String c s' =>
      match rstrip s' with
      | EmptyString => if is_space c then EmptyString else String c EmptyString
      | r => String c r
      end
  end.

(** [s.strip()] *)
Definition strip (s : string) : string := rstrip (lstrip s).

(** [s.lstrip('/')] *)
Fixpoint lstrip_slash (s : string) : string :=
  match s with
  | String "/" s' => lstrip_slash s'
  | _ => s
  end.

(** [s.startswith(p)] *)
Definition startswith (s p : string) : bool := String.prefix p s.

(** ** Exceptions *)

Inductive exn :=
  | IntegrityError
  | CookieError
  | OtherException (name : string).

Inductive outcome (A : Type) :=
  | Returns (a : A)
  | Raises (e : exn).
Arguments Returns {A} a.
Arguments Raises {A} e.

Definition outcome_bind {A B} (f : A → outcome B) (m : outcome A) : outcome B :=
  match m with
  | Returns a => f a
  | Raises e => Raises e
  end.

#[global] Instance outcome_ret : MRet outcome := @Returns.
#[global] Instance outcome_mbind : MBind outcome := @outcome_bind.

(** [try: body / except Exception: handler] *)
Definition try_except {A} (body : outcome A) (handler : exn → outcome A) : outcome A :=
  match body with
  | Returns a => Returns a
  | Raises e => handler e
  end.

(** [try: body / except sqlite3.IntegrityError: handler] *)
Definition try_except_IntegrityError {A} (body : outcome A) (handler : outcome A) : outcome A :=
  match body with
  | Raises IntegrityError => handler
  | other => other
  end.

(** ** Python dictionaries with string keys, in insertion order *)

Definition dict (V : Type) := list (string * V).

(** [d.get(k)] *)
Fixpoint dict_get {V} (k : string) (d : dict V) : option V :=
  match d with
  | [] => None
  | (k', v) :: d' => if String.eqb k' k then Some v else dict_get k d'
  end.

(** [d[k] = v]: an existing key keeps its place, a new key goes last. *)
Fixpoint dict_set {V} (k : string) (v : V) (d : dict V) : dict V :=
  match d with
  | [] => [(k, v)]
  | (k', v') :: d' =>
      if String.eqb k' k then (k', v) :: d' else (k', v') :: dict_set k v d'
  end.

(** [del d[k]] for a key that is present. *)
Fixpoint dict_del {V} (k : string) (d : dict V) : dict V :=
  match d with
  | [] => []
  | (k', v') :: d' =>
      if String.eqb k' k then dict_del k d' else (k', v') :: dict_del k d'
  end.

(** ** Sessions *)

(** The dictionary [set_session] stores: keys [id], [user_name],
    [tenant_id], [tenant_name]. It has four keys, so it is always true in
    a boolean context. *)
Record session := {
  s_id : Z;
  s_user_name : string;
  s_tenant_id : Z;
  s_tenant_name : string;
}.

#[global] Instance session_eq_dec : EqDecision session.
Proof. solve_decision. Defined.

(** ** The database *)

Record tenant_row := {
  t_id : Z;
  t_name : string;
}.

Record user_row := {
  u_id : Z;
  u_tenant_id : Z;
  u_name : string;
  u_email : string;
  u_password : string;
}.

(** [date_of_birth] and [notes] are nullable. *)
Record patient_row := {
  p_id : Z;
  p_tenant_id : Z;
  p_name : string;
  p_date_of_birth : option string;
  p_notes : option string;
}.

(** The [created_at] columns are written by the store and read by no
    handler; they are left out. *)
Record database := {
  tenants : list tenant_row;
  users : list user_row;
  patients : list patient_row;
}.

(** The rowid an [INTEGER PRIMARY KEY AUTOINCREMENT] column gives the next
    row: one more than the largest in use (no handler deletes rows). *)
Definition next_rowid (ids : list Z) : Z := 1 + foldr Z.max 0 ids.

(** [INSERT INTO tenants (name) VALUES (?)]: the [UNIQUE] constraint on
    [name] raises [IntegrityError]; otherwise the new database and
    [lastrowid]. *)
Definition insert_tenant (name : string) (db : database) : outcome (database * Z) :=
  if existsb (λ t, String.eqb (t_name t) name) (tenants db) then
    Raises IntegrityError
  else
    let rowid := next_rowid (t_id <$> tenants db) in
    Returns ({| tenants := tenants db ++ [{| t_id := rowid; t_name := name |}];
                users := users db;
                patients := patients db |}, rowid).

(** [INSERT INTO users (tenant_id, name, email, password) VALUES (?,?,?,?)] *)
Definition insert_user (tenant_id : Z) (name email password : string)
    (db : database) : outcome (database * Z) :=
  let rowid := next_rowid (u_id <$> users db) in
  Returns ({| tenants := tenants db;
              users := users db ++ [{| u_id := rowid; u_tenant_id := tenant_id;
                                       u_name := name; u_email := email;
                                       u_password := password |}];
              patients := patients db |}, rowid).

(** [INSERT INTO patients (tenant_id, name, date_of_birth, notes)
    VALUES (?,?,?,?)] *)
Definition insert_patient (tenant_id : Z) (name : string)
    (dob notes : option string) (db : database) : database :=
  let rowid := next_rowid (p_id <$> patients db) in
  {| tenants := tenants db;
     users := users db;
     patients := patients db ++ [{| p_id := rowid; p_tenant_id := tenant_id;
                                    p_name := name; p_date_of_birth := dob;
                                    p_notes := notes |}] |}.

(** [SELECT id FROM tenants WHERE name = ?] followed by [fetchone()] *)
Definition select_tenant (name : string) (db : database) : option Z :=
  t_id <$> find (λ t, String.eqb (t_name t) name) (tenants db).

(** [SELECT id, name, password FROM users WHERE tenant_id = ? AND email = ?]
    followed by [fetchone()]: the first matching row. *)
Definition select_user (tenant_id : Z) (email : string) (db : database)
    : option (Z * string * string) :=
  (λ u, (u_id u, u_name u, u_password u)) <$>
    find (λ u, Z.eqb (u_tenant_id u) tenant_id && String.eqb (u_email u) email) (users db).

(** [SELECT name, date_of_birth, notes FROM patients WHERE tenant_id = ?]
    followed by [fetchall()] *)
Definition select_patients (tenant_id : Z) (db : database)
    : list (string * option string * option string) :=
  (λ p, (p_name p, p_date_of_birth p, p_notes p)) <$>
    filter (λ p, p_tenant_id p = tenant_id) (patients db).

(** ** The file system *)

(** Regular files and directories; no symbolic links. *)
#[warnings="-register-all"]
Inductive node :=
  | File (data : string)
  | Dir (entries : list (string * node)).

(** The node at a location, given as the names from the root down. *)
Fixpoint node_at (n : node) (loc : list string) : option node :=
  match loc with
  | [] => Some n
  | name :: loc' =>
      match n with
      | Dir entries =>
          match dict_get name entries with
          | Some child => node_at child loc'
          | None => None
          end
      | File _ => None
      end
  end.

(** [s.split(sep)] for a one-character separator. *)
Fixpoint split_on (sep : ascii) (s : string) : list string :=
  match s with
  | EmptyString => [EmptyString]
  | String c s' =>
      if Ascii.eqb c sep then EmptyString :: split_on sep s'
      else match split_on sep s' with
           | x :: xs => String c x :: xs
           | [] => [String c EmptyString]
           end
  end.

(** The components of a path name, split at every slash. *)
Definition split_slash (s : string) : list string := split_on "/" s.

(** One step of path name resolution, from the location [rloc] (innermost
    name first): the current node has to be a directory; an empty component
    and [.] stay, [..] goes to the parent (the root is its own parent), a
    name goes to that entry. *)
Definition walk_step (root : node) (rloc : option (list string)) (comp : string)
    : option (list string) :=
  match rloc with
  | None => None
  | Some rloc =>
      match node_at root (rev rloc) with
      | Some (Dir entries) =>
          if String.eqb comp "" || String.eqb comp "." then Some rloc
          else if String.eqb comp ".." then Some (tail rloc)
          else match dict_get comp entries with
               | Some _ => Some (comp :: rloc)
               | None => None
               end
      | _ => None
      end
  end.

(** Path name resolution as the operating system does it for [stat] and
    [open]: an absolute path starts at the root, another one at the working
    directory; the empty path resolves to nothing. *)
Definition resolve (root : node) (cwd : list string) (path : string)
    : option (list string) :=
  if String.eqb path "" then None
  else
    let start := if startswith path "/" then [] else rev cwd in
    (λ rloc, rev rloc) <$> foldl (walk_step root) (Some start) (split_slash path).

(** [os.path.isfile(path)] *)
Definition isfile (root : node) (cwd : list string) (path : string) : bool :=
  match resolve root cwd path ≫= node_at root with
  | Some (File _) => true
  | _ => false
  end.

(** [open(path, 'rb').read()] for a path that [isfile] accepts. *)
Definition read_file (root : node) (cwd : list string) (path : string) : string :=
  match resolve root cwd path ≫= node_at root with
  | Some (File data) => data
  | _ => ""
  end.

Fixpoint ends_with_slash (s : string) : bool :=
  match s with
  | EmptyString => false
  | String c EmptyString => Ascii.eqb c "/"
  | String _ s' => ends_with_slash s'
  end.

(** [os.path.join(a, b)] of [posixpath]. *)
Definition path_join (a b : string) : string :=
  if startswith b "/" then b
  else if String.eqb a "" || ends_with_slash a then (a ++ b)%string
  else (a ++ "/" ++ b)%string.

(** [inside dir loc]: the location [loc] is [dir] or below it. *)
Definition inside (dir loc : list string) : bool :=
  bool_decide (take (List.length dir) loc = dir).

(** ** Requests and responses *)

(** The result of [urllib.parse.parse_qs]: each key that occurs has the
    non-empty list of its values, kept as the first value and the rest. *)
Definition form := gmap string (string * list string).

(** [data.get(key, [''])[0]] *)
Definition field (data : form) (key : string) : string :=
  match data !! key with
  | Some (v, _) => v
  | None => ""
  end.

Record request := {
  path : string;
  Cookie : option string;
  post_data : form;
  uuid4 : string;
}.

(** The dictionaries [render_dashboard] builds for the template. *)
Record patient_view := {
  v_name : string;
  v_date_of_birth : string;
  v_notes : string;
}.

Inductive pyval :=
  | PyNone
  | PyStr (s : string)
  | PySession (s : session)
  | PyPatients (l : list patient_view).

(** [render_template(template_name, **context)]: templating is an outside
    collaborator, a pure function of the template name and the context; a
    rendered page is kept as that pair. *)
Record html := render_template {
  template_name : string;
  context : list (string * pyval);
}.

Inductive set_cookie :=
  | SessionCookie (session_id : string)
  | ExpiredCookie.

Inductive response :=
  | Ok200 (body : html)
  | Found302 (cookie : option set_cookie) (location : string)
  | Error (code : Z) (message : string)
  | File200 (content_type : string) (body : string).

Record state := {
  db : database;
  SESSIONS : dict session;
}.

(** [user=session] in a template context. *)
Definition user_val (session : option session) : pyval :=
  match session with
  | Some s => PySession s
  | None => PyNone
  end.

(** [x or ''] for a nullable text column. *)
Definition or_empty (x : option string) : string :=
  match x with
  | Some s => if truthy s then s else ""
  | None => ""
  end.

(** [x if x else None] *)
Definition or_none (x : string) : option string :=
  if truthy x then Some x else None.

(** The dictionary the dashboard builds from a row of [patients]. *)
Definition patient_view_of (p : patient_row) : patient_view :=
  {| v_name := p_name p;
     v_date_of_birth := or_empty (p_date_of_birth p);
     v_notes := or_empty (p_notes p) |}.

(** The rows of the tenant, as [select_patients] filters them. *)
Definition of_tenant (tenant_id : Z) (rows : list patient_row) : list patient_row :=
  filter (λ p, p_tenant_id p = tenant_id) rows.
Arguments of_tenant : simpl never.

(** The pages with an error message. *)
Definition error_page (template : string) (message : string) : response :=
  Ok200 (render_template template [("user", PyNone); ("error", PyStr message)]).

(** The dashboard page of a session over a list of patients. *)
Definition dashboard_page (session : session) (l : list patient_view) : response :=
  Ok200 (render_template "dashboard.html"
           [("user", PySession session); ("patients", PyPatients l)]).

(** The loop of [handle_logout] over [list(SESSIONS.items())]: the first
    entry of the user is deleted, and the loop ends there. *)
Fixpoint logout_loop (items : list (string * session)) (user_id : Z)
    (sessions : dict session) : dict session :=
  match items with
  | [] => sessions
  | (sid, data) :: items' =>
      if Z.eqb (s_id data) user_id then dict_del sid sessions
      else logout_loop items' user_id sessions
  end.

(** ** The handler *)

Section MedSynQHandler.

(** [cookies.SimpleCookie().load(header)]: the names and values of the
    cookies of the header, or an exception. *)
Variable cookie_load : string → outcome (gmap string string).
(** [self.guess_type(path)] *)
Variable guess_type : string → string.
(** The file system, the working directory of the process and
    [os.path.dirname(__file__)]. *)
Variable root : node.
Variable cwd : list string.
Variable dirname : string.

Definition PUBLIC_DIR : string := path_join dirname "public".

Definition redirect (location : string) : response := Found302 None location.

Definition respond (body : html) : response := Ok200 body.

Definition serve_static (path : string) : response :=
  let file_path := path_join dirname (lstrip_slash path) in
  if negb (isfile root cwd file_path) then Error 404 "File Not Found"
  else File200 (guess_type file_path) (read_file root cwd file_path).

Definition get_session (req : request) (sessions : dict session)
    : outcome (option session) :=
  match Cookie req with
  | None => Returns None
  | Some cookie_header =>
      try_except
        (cookie ← cookie_load cookie_header;
         match cookie !! "session_id" with
         | Some session_id =>
             match dict_get session_id sessions with
             | Some session_data => Returns (Some session_data)
             | None => Returns None
             end
         | None => Returns None
         end)
        (λ _, Returns None)
  end.

(** The token a request presents: the value of the [session_id] cookie,
    when there is a [Cookie] header that the parser accepts. *)
Definition presented_token (req : request) : option string :=
  match Cookie req with
  | None => None
  | Some cookie_header =>
      match cookie_load cookie_header with
      | Returns cookie => cookie !! "session_id"
      | Raises _ => None
      end
  end.

(** [set_session]: the new registry, and the 302 response with its
    [Set-Cookie] header, to which the caller adds [Location]. *)
Definition set_session (req : request) (user_id : Z) (user_name : string)
    (tenant_id : Z) (tenant_name : string) (sessions : dict session)
    : dict session * (string → response) :=
  let session_id := uuid4 req in
  (dict_set session_id
     {| s_id := user_id; s_user_name := user_name;
        s_tenant_id := tenant_id; s_tenant_name := tenant_name |} sessions,
   Found302 (Some (SessionCookie session_id))).

Definition clear_session : string → response := Found302 (Some ExpiredCookie).

Definition handle_register_tenant (req : request) (st : state)
    : outcome (response * state) :=
  let data := post_data req in
  let tenant_name := strip (field data "tenantName") in
  let admin_name := strip (field data "adminName") in
  let admin_email := strip (field data "adminEmail") in
  let admin_password := field data "adminPassword" in
  if negb (truthy tenant_name) || negb (truthy admin_name) ||
     negb (truthy admin_email) || negb (truthy admin_password) then
    Returns (respond (render_template "register_tenant.html"
               [("user", PyNone); ("error", PyStr "All fields are required.")]), st)
  else
    try_except_IntegrityError
      ('(db1, tenant_id) ← insert_tenant tenant_name (db st);
       '(db2, user_id) ← insert_user tenant_id admin_name admin_email admin_password db1;
       let '(sessions, send) :=
         set_session req user_id admin_name tenant_id tenant_name (SESSIONS st) in
       Returns (send "/dashboard", {| db := db2; SESSIONS := sessions |}))
      (Returns (respond (render_template "register_tenant.html"
                  [("user", PyNone); ("error", PyStr "Organisation name already exists.")]), st)).

Definition handle_login (req : request) (st : state) : outcome (response * state) :=
  let data := post_data req in
  let tenant_name := strip (field data "tenantName") in
  let email := strip (field data "email") in
  let password := field data "password" in
  if negb (truthy tenant_name) || negb (truthy email) || negb (truthy password) then
    Returns (respond (render_template "login.html"
               [("user", PyNone); ("error", PyStr "All fields are required.")]), st)
  else
    match select_tenant tenant_name (db st) with
    | None =>
        Returns (respond (render_template "login.html"
                   [("user", PyNone); ("error", PyStr "Organisation not found.")]), st)
    | Some tenant_id =>
        match select_user tenant_id email (db st) with
        | Some (user_id, user_name, stored) =>
            if negb (String.eqb stored password) then
              Returns (respond (render_template "login.html"
                         [("user", PyNone); ("error", PyStr "Invalid credentials.")]), st)
            else
              let '(sessions, send) :=
                set_session req user_id user_name tenant_id tenant_name (SESSIONS st) in
              Returns (send "/dashboard", {| db := db st; SESSIONS := sessions |})
        | None =>
            Returns (respond (render_template "login.html"
                       [("user", PyNone); ("error", PyStr "Invalid credentials.")]), st)
        end
    end.

Definition handle_new_patient (req : request) (st : state)
    : outcome (response * state) :=
  session ← get_session req (SESSIONS st);
  match session with
  | None => Returns (redirect "/login", st)
  | Some session =>
      let data := post_data req in
      let name := strip (field data "name") in
      let dob := field data "date_of_birth" in
      let notes := field data "notes" in
      if negb (truthy name) then
        Returns (respond (render_template "new_patient.html"
                   [("user", PySession session); ("error", PyStr "Name is required.")]), st)
      else
        Returns (redirect "/dashboard",
                 {| db := insert_patient (s_tenant_id session) name
                            (or_none dob) (or_none notes) (db st);
                    SESSIONS := SESSIONS st |})
  end.

Definition handle_logout (req : request) (st : state) : outcome (response * state) :=
  let send := clear_session in
  session ← get_session req (SESSIONS st);
  let sessions :=
    match session with
    | Some session => logout_loop (SESSIONS st) (s_id session) (SESSIONS st)
    | None => SESSIONS st
    end in
  Returns (send "/", {| db := db st; SESSIONS := sessions |}).

Definition render_dashboard (session : session) (st : state) : response :=
  let patients :=
    (λ row : string * option string * option string,
       {| v_name := row.1.1;
          v_date_of_birth := or_empty row.1.2;
          v_notes := or_empty row.2 |})
      <$> select_patients (s_tenant_id session) (db st) in
  respond (render_template "dashboard.html"
             [("user", PySession session); ("patients", PyPatients patients)]).

Definition do_GET (req : request) (st : state) : outcome (response * state) :=
  if startswith (path req) "/public/" then Returns (serve_static (path req), st)
  else
    session ← get_session req (SESSIONS st);
    if String.eqb (path req) "/" then
      Returns (respond (render_template "index.html"
                 [("user", user_val session); ("error", PyNone)]), st)
    else if String.eqb (path req) "/register-tenant" then
      Returns (respond (render_template "register_tenant.html"
                 [("user", user_val session); ("error", PyNone)]), st)
    else if String.eqb (path req) "/login" then
      Returns (respond (render_template "login.html"
                 [("user", user_val session); ("error", PyNone)]), st)
    else if String.eqb (path req) "/dashboard" then
      match session with
      | None => Returns (redirect "/login", st)
      | Some session => Returns (render_dashboard session st, st)
      end
    else if String.eqb (path req) "/patients/new" then
      match session with
      | None => Returns (redirect "/login", st)
      | Some session =>
          Returns (respond (render_template "new_patient.html"
                     [("user", PySession session); ("error", PyNone)]), st)
      end
    else if String.eqb (path req) "/logout" then handle_logout req st
    else Returns (Error 404 "Not Found", st).

Definition do_POST (req : request) (st : state) : outcome (response * state) :=
  if String.eqb (path req) "/register-tenant" then handle_register_tenant req st
  else if String.eqb (path req) "/login" then handle_login req st
  else if String.eqb (path req) "/patients/new" then handle_new_patient req st
  else Returns (Error 404 "Not Found", st).

End MedSynQHandler.

(** [DB_PATH]: the SQLite file every handler opens with
    [sqlite3.connect(DB_PATH)]; it holds the rows of all tenants. *)
Definition DB_PATH (dirname : string) : string := path_join dirname "database.sqlite".

(** ** Instances for running the handler

    A cookie parser for headers of the form [name=value; name=value]: a
    piece without [=] makes the header invalid and nothing is loaded; a
    name with a comma is an illegal key and raises [CookieError]. *)

Fixpoint cut_eq (s : string) : option (string * string) :=
  match s with
  | EmptyString => None
  | String c s' =>
      if Ascii.eqb c "=" then Some (EmptyString, s')
      else match cut_eq s' with
           | Some (k, v) => Some (String c k, v)
           | None => None
           end
  end.

Fixpoint has_comma (s : string) : bool :=
  match s with
  | EmptyString => false
  | String c s' => Ascii.eqb c "," || has_comma s'
  end.

Fixpoint load_pieces (pieces : list string) (jar : gmap string string)
    : outcome (gmap string string) :=
  match pieces with
  | [] => Returns jar
  | piece :: pieces' =>
      match cut_eq (strip piece) with
      | None => Returns ∅
      | Some (k, v) =>
          if has_comma k then Raises CookieError
          else load_pieces pieces' (<[k := v]> jar)
      end
  end.

Definition example_cookie_load (header : string) : outcome (gmap string string) :=
  load_pieces (split_on ";" header) ∅.

Definition example_guess_type (_ : string) : string := "application/octet-stream".

(** [server.py] lives in [/srv/medsynq], next to its database and above
    its [public] directory. *)
Definition example_root : node :=
  Dir [("srv", Dir [("medsynq", Dir [
         ("server.py", File "import http.server");
         ("database.sqlite", File "SQLite format 3");
         ("public", Dir [("style.css", File "body { margin: 0 }")])])])].

Definition example_cwd : list string := ["srv"; "medsynq"].
Definition example_dirname : string := "/srv/medsynq".

Definition example_GET := do_GET example_cookie_load example_guess_type
  example_root example_cwd example_dirname.
Definition example_POST := do_POST example_cookie_load.

Definition al : session :=
  {| s_id := 1; s_user_name := "Al"; s_tenant_id := 1; s_tenant_name := "Acme" |}.

Definition bo : session :=
  {| s_id := 2; s_user_name := "Bo"; s_tenant_id := 2; s_tenant_name := "Bolt" |}.

(** Two tenants with one user each, a patient of each tenant, and no
    session. *)
Definition example_db : database :=
  {| tenants := [{| t_id := 1; t_name := "Acme" |}; {| t_id := 2; t_name := "Bolt" |}];
     users := [{| u_id := 1; u_tenant_id := 1; u_name := "Al";
                  u_email := "al@acme.test"; u_password := "pw" |};
               {| u_id := 2; u_tenant_id := 2; u_name := "Bo";
                  u_email := "bo@bolt.test"; u_password := "secret" |}];
     patients := [{| p_id := 1; p_tenant_id := 1; p_name := "Jane";
                     p_date_of_birth := None; p_notes := Some "flu" |};
                  {| p_id := 2; p_tenant_id := 2; p_name := "Rex";
                     p_date_of_birth := Some "1980-05-05"; p_notes := None |}] |}.

(** Al logged in twice (tokens [t1], then [t2]), Bo once. *)
Definition example_state : state :=
  {| db := example_db; SESSIONS := [("t1", al); ("t2", al); ("t3", bo)] |}.

Definition get (path : string) (cookie : option string) : request :=
  {| path := path; Cookie := cookie; post_data := ∅; uuid4 := "" |}.

Definition post (path : string) (cookie : option string)
    (fields : list (string * string)) (token : string) : request :=
  {| path := path; Cookie := cookie;
     post_data := list_to_map ((λ kv, (kv.1, (kv.2, []))) <$> fields);
     uuid4 := token |}.

(** ** The server over a sequence of requests *)

Definition empty_db : database := {| tenants := []; users := []; patients := [] |}.

(** [init_db]: the three tables are created where the database file has
    none ([CREATE TABLE IF NOT EXISTS]); the rows of an existing file are
    kept. *)
Definition init_db (file : option database) : database :=
  match file with
  | Some db => db
  | None => empty_db
  end.

(** The state the process starts from: the database after [init_db], and
    [SESSIONS = {}]. *)
Definition initial_state (file : option database) : state :=
  {| db := init_db file; SESSIONS := [] |}.

Inductive method := M_GET | M_POST.

(** The dispatch of [http.server] on the request method. *)
Definition handle (cookie_load : string → outcome (gmap string string))
    (guess_type : string → string) (root : node) (cwd : list string)
    (dirname : string) (m : method) (req : request) (st : state)
    : outcome (response * state) :=
  match m with
  | M_GET => do_GET cookie_load guess_type root cwd dirname req st
  | M_POST => do_POST cookie_load req st
  end.

(** [serve_forever] of [socketserver.TCPServer]: the requests are handled
    one after the other, each on the state the one before it left. *)
Fixpoint serve_forever (cookie_load : string → outcome (gmap string string))
    (guess_type : string → string) (root : node) (cwd : list string)
    (dirname : string) (requests : list (method * request)) (st : state)
    : outcome state :=
  match requests with
  | [] => Returns st
  | (m, req) :: requests' =>
      '(_, st') ← handle cookie_load guess_type root cwd dirname m req st;
      serve_forever cookie_load guess_type root cwd dirname requests' st'
  end.

(** ** Consistency of a state *)

(** A text that is not empty and has no white space at either end. *)
Definition trimmed (s : string) : Prop := s ≠ "" ∧ strip s = s.

(** The texts the handlers check before they store them. *)
Definition fields_ok (db : database) : Prop :=
  Forall (λ t, trimmed (t_name t)) (tenants db) ∧
  Forall (λ u, trimmed (u_name u) ∧ trimmed (u_email u) ∧ u_password u ≠ "") (users db) ∧
  Forall (λ p, trimmed (p_name p) ∧ p_date_of_birth p ≠ Some "" ∧ p_notes p ≠ Some "")
    (patients db).

(** The [PRIMARY KEY] columns and the [UNIQUE] tenant names. *)
Definition rows_distinct (db : database) : Prop :=
  NoDup (t_id <$> tenants db) ∧ NoDup (t_name <$> tenants db) ∧
  NoDup (u_id <$> users db) ∧ NoDup (p_id <$> patients db).

(** A session is the snapshot of a user row and of the row of its tenant. *)
Definition session_valid (db : database) (s : session) : Prop :=
  (s_tenant_id s, s_tenant_name s) ∈ (λ t, (t_id t, t_name t)) <$> tenants db ∧
  (s_id s, s_tenant_id s, s_user_name s) ∈
    (λ u, (u_id u, u_tenant_id u, u_name u)) <$> users db.

(** The [FOREIGN KEY] columns name a tenant, and so does every session of
    the registry, whose keys are distinct. *)
Definition references_ok (st : state) : Prop :=
  Forall (λ u, u_tenant_id u ∈ t_id <$> tenants (db st)) (users (db st)) ∧
  Forall (λ p, p_tenant_id p ∈ t_id <$> tenants (db st)) (patients (db st)) ∧
  Forall (λ e, session_valid (db st) e.2) (SESSIONS st) ∧
  NoDup (SESSIONS st).*1.

(** What a request does to the state, with the response that goes with it:
    nothing, a registration, a login, a new patient or a logout. *)
Inductive effect (st : state) : response → state → Prop :=
  | effect_none resp :
      (∀ session_id location,
         resp ≠ Found302 (Some (SessionCookie session_id)) location) →
      effect st resp st
  | effect_register token tenant_name admin_name admin_email admin_password :
      trimmed tenant_name → trimmed admin_name → trimmed admin_email →
      admin_password ≠ "" →
      tenant_name ∉ t_name <$> tenants (db st) →
      let tenant_id := next_rowid (t_id <$> tenants (db st)) in
      let user_id := next_rowid (u_id <$> users (db st)) in
      effect st (Found302 (Some (SessionCookie token)) "/dashboard")
        {| db :=
             {| tenants := tenants (db st) ++
                  [{| t_id := tenant_id; t_name := tenant_name |}];
                users := users (db st) ++
                  [{| u_id := user_id; u_tenant_id := tenant_id; u_name := admin_name;
                      u_email := admin_email; u_password := admin_password |}];
                patients := patients (db st) |};
           SESSIONS :=
             dict_set token
               {| s_id := user_id; s_user_name := admin_name;
                  s_tenant_id := tenant_id; s_tenant_name := tenant_name |}
               (SESSIONS st) |}
  | effect_login token t u :
      t ∈ tenants (db st) → u ∈ users (db st) → u_tenant_id u = t_id t →
      effect st (Found302 (Some (SessionCookie token)) "/dashboard")
        {| db := db st;
           SESSIONS :=
             dict_set token
               {| s_id := u_id u; s_user_name := u_name u;
                  s_tenant_id := t_id t; s_tenant_name := t_name t |}
               (SESSIONS st) |}
  | effect_patient session_id session name dob notes :
      dict_get session_id (SESSIONS st) = Some session →
      trimmed name → dob ≠ Some "" → notes ≠ Some "" →
      effect st (Found302 None "/dashboard")
        {| db := insert_patient (s_tenant_id session) name dob notes (db st);
           SESSIONS := SESSIONS st |}
  | effect_logout session_id data :
      (session_id, data) ∈ SESSIONS st →
      effect st (Found302 (Some ExpiredCookie) "/")
        {| db := db st; SESSIONS := dict_del session_id (SESSIONS st) |}.

(** A run for the instances: Eve registers the tenant Echo, Al logs in and
    adds a patient, Bo opens the dashboard, Al logs out. *)
Definition example_requests : list (method * request) :=
  [(M_POST, post "/register-tenant" None
      [("tenantName", " Echo "); ("adminName", "Eve"); ("adminEmail", "eve@echo.test");
       ("adminPassword", "e")] "t4");
   (M_POST, post "/login" None
      [("tenantName", "Acme"); ("email", "al@acme.test"); ("password", "pw")] "t5");
   (M_POST, post "/patients/new" (Some "session_id=t5")
      [("name", "Joe"); ("notes", "cough")] "");
   (M_GET, get "/dashboard" (Some "session_id=t3"));
   (M_GET, get "/logout" (Some "session_id=t5"))].

Definition example_serve := serve_forever example_cookie_load example_guess_type
  example_root example_cwd example_dirname.

Definition example_handle := handle example_cookie_load example_guess_type
  example_root example_cwd example_dirname.

(** * Properties *)

(** ** Strings and dictionaries *)

Lemma truthy_false (s : string) : truthy s = false ↔ s = "".
Proof. destruct s; simpl; split; congruence. Qed.

Lemma truthy_true (s : string) : truthy s = true ↔ s ≠ "".
Proof. destruct s; simpl; split; congruence. Qed.

Lemma or_empty_or_none (s : string) : or_empty (or_none s) = s.
Proof. destruct s; reflexivity. Qed.

Lemma lstrip_spaces (s : string) :
  forallb is_space (list_ascii_of_string s) = true → lstrip s = "".
Proof.
  induction s as [|c s IH]; simpl; [done|].
  intros [Hc Hs]%andb_true_iff. rewrite Hc. auto.
Qed.

Lemma strip_spaces (s : string) :
  forallb is_space (list_ascii_of_string s) = true → strip s = "".
Proof. intros H. unfold strip. by rewrite lstrip_spaces. Qed.

Lemma dict_get_del {V} (k k' : string) (d : dict V) :
  dict_get k (dict_del k' d) = if String.eqb k' k then None else dict_get k d.
Proof.
  induction d as [|[k0 v0] d IH]; simpl.
  - by destruct (String.eqb k' k).
  - destruct (String.eqb_spec k0 k') as [->|Hne]; simpl.
    + rewrite IH. by destruct (String.eqb_spec k' k).
    + rewrite IH. destruct (String.eqb_spec k0 k) as [->|?]; [|done].
      by destruct (String.eqb_spec k' k).
Qed.

Lemma dict_get_elem {V} (k : string) (v : V) (d : dict V) :
  NoDup d.*1 → (k, v) ∈ d → dict_get k d = Some v.
Proof.
  induction d as [|[k0 v0] d IH]; simpl; intros Hnd Hin.
  - by apply elem_of_nil in Hin.
  - apply NoDup_cons in Hnd as [Hk0 Hnd].
    apply elem_of_cons in Hin as [[= -> ->]|Hin].
    + by rewrite String.eqb_refl.
    + destruct (String.eqb k0 k) eqn:E; [|by apply IH].
      apply String.eqb_eq in E as ->. exfalso. apply Hk0.
      apply list_elem_of_fmap. by exists (k, v).
Qed.

Lemma dict_del_keys {V} (k : string) (d : dict V) :
  (dict_del k d).*1 = filter (λ k', k' ≠ k) d.*1.
Proof.
  induction d as [|[k0 v0] d IH]; csimpl; [done|].
  destruct (String.eqb k0 k) eqn:E.
  - apply String.eqb_eq in E as ->. rewrite filter_cons_False; [done|]. by intros []. 
  - apply String.eqb_neq in E. rewrite filter_cons_True by done.
    csimpl. by rewrite IH.
Qed.

(** Deleting a key keeps the keys of a dictionary distinct. *)
Lemma dict_del_NoDup {V} (k : string) (d : dict V) :
  NoDup d.*1 → NoDup (dict_del k d).*1.
Proof. intros H. rewrite dict_del_keys. by apply NoDup_filter. Qed.

Lemma dict_set_keys {V} (k : string) (v : V) (d : dict V) :
  (dict_set k v d).*1 = if bool_decide (k ∈ d.*1) then d.*1 else d.*1 ++ [k].
Proof.
  induction d as [|[k0 v0] d IH]; csimpl; [done|].
  destruct (String.eqb k0 k) eqn:E.
  - apply String.eqb_eq in E as ->. rewrite bool_decide_eq_true_2; [done|].
    apply elem_of_cons; auto.
  - apply String.eqb_neq in E. csimpl. rewrite IH.
    destruct (bool_decide (k ∈ d.*1)) eqn:Hd.
    + apply bool_decide_eq_true in Hd. rewrite bool_decide_eq_true_2; [done|].
      apply elem_of_cons; auto.
    + apply bool_decide_eq_false in Hd. rewrite bool_decide_eq_false_2; [done|].
      intros [?|?]%elem_of_cons; congruence.
Qed.

(** Assigning to a key keeps the keys of a dictionary distinct. *)
Lemma dict_set_NoDup {V} (k : string) (v : V) (d : dict V) :
  NoDup d.*1 → NoDup (dict_set k v d).*1.
Proof.
  intros H. rewrite dict_set_keys. case_bool_decide as Hk; [done|].
  apply NoDup_app. split_and!; [done| |apply NoDup_singleton].
  intros x Hx ->%list_elem_of_singleton. done.
Qed.

Lemma dict_get_set {V} (k k' : string) (v : V) (d : dict V) :
  dict_get k' (dict_set k v d) = if String.eqb k k' then Some v else dict_get k' d.
Proof.
  induction d as [|[k0 v0] d IH]; simpl; [done|].
  destruct (String.eqb_spec k0 k) as [->|Hne]; simpl.
  - by destruct (String.eqb_spec k k').
  - rewrite IH. destruct (String.eqb_spec k0 k') as [->|?]; [|done].
    by destruct (String.eqb_spec k k').
Qed.

(** What the logout loop does: nothing, or the deletion of the key of one
    entry of the user. *)
Lemma logout_loop_spec (items : list (string * session)) (user_id : Z)
    (sessions : dict session) :
  (logout_loop items user_id sessions = sessions ∧
   ∀ sid data, (sid, data) ∈ items → s_id data ≠ user_id) ∨
  ∃ sid data, (sid, data) ∈ items ∧ s_id data = user_id ∧
    logout_loop items user_id sessions = dict_del sid sessions.
Proof.
  induction items as [|[sid data] items IH]; simpl.
  - left. split; [done|]. intros ?? []%elem_of_nil.
  - destruct (Z.eqb (s_id data) user_id) eqn:E.
    + apply Z.eqb_eq in E. right. exists sid, data. split_and!; [left|done..].
    + apply Z.eqb_neq in E. destruct IH as [[-> Hno]|(sid' & data' & Hin & Hid & ->)].
      * left. split; [done|]. intros ?? [[= -> ->]|?]%elem_of_cons; eauto.
      * right. exists sid', data'. split_and!; [by right|done..].
Qed.

(** ** The session registry *)

Section Registry.

Variable cookie_load : string → outcome (gmap string string).
Variable guess_type : string → string.
Variable root : node.
Variable cwd : list string.
Variable dirname : string.

Abbreviation session_of := (get_session cookie_load).
Abbreviation token_of := (presented_token cookie_load).
Abbreviation GET := (do_GET cookie_load guess_type root cwd dirname).
Abbreviation POST := (do_POST cookie_load).

Lemma get_session_lookup (req : request) (sessions : dict session) :
  session_of req sessions =
    Returns (token_of req ≫= λ session_id, dict_get session_id sessions).
Proof.
  unfold get_session, presented_token.
  destruct (Cookie req) as [cookie_header|]; [|done].
  destruct (cookie_load cookie_header) as [cookie|e]; [|done].
  simpl. destruct (cookie !! "session_id") as [session_id|]; [|done].
  simpl. by destruct (dict_get session_id sessions).
Qed.


(** C6. Without a valid session (the session lookup gives None: no Cookie
    header, no session_id cookie, or a token that is not in the registry),
    GET /dashboard, GET /patients/new and POST /patients/new answer with a
    302 redirect to /login, which has no body, and leave the store and the
    registry as they were. *)
Theorem session_gate (cookie : option string) (data : form) (token : string)
    (st : state) :
  let req p := {| path := p; Cookie := cookie; post_data := data; uuid4 := token |} in
  session_of (req "/dashboard") (SESSIONS st) = Returns None →
  GET (req "/dashboard") st = Returns (Found302 None "/login", st) ∧
  GET (req "/patients/new") st = Returns (Found302 None "/login", st) ∧
  POST (req "/patients/new") st = Returns (Found302 None "/login", st).
Proof.
  intros req Hs. rewrite get_session_lookup in Hs.
  unfold do_GET, do_POST, handle_new_patient.
  rewrite !get_session_lookup. injection Hs as Hs.
  unfold presented_token in *. cbn in *. by rewrite Hs.
Qed.

(** C10. GET /logout removes only registry entries of the user of the
    requesting session: a token of another user keeps its snapshot, no
    entry is added or changed, and without a valid session the registry is
    unchanged. The store is never touched. *)
Theorem logout_frame (cookie : option string) (data : form) (token : string)
    (st : state) :
  let req := {| path := "/logout"; Cookie := cookie; post_data := data; uuid4 := token |} in
  NoDup (SESSIONS st).*1 →
  ∃ st', GET req st = Returns (Found302 (Some ExpiredCookie) "/", st') ∧
    db st' = db st ∧
    NoDup (SESSIONS st').*1 ∧
    (∀ sid data, dict_get sid (SESSIONS st') = Some data →
       dict_get sid (SESSIONS st) = Some data) ∧
    match session_of req (SESSIONS st) with
    | Returns (Some session) =>
        ∀ sid data, dict_get sid (SESSIONS st) = Some data →
          s_id data ≠ s_id session →
          dict_get sid (SESSIONS st') = Some data
    | _ => SESSIONS st' = SESSIONS st
    end.
Proof.
  intros req Hnd.
  unfold do_GET, handle_logout. rewrite !get_session_lookup. cbn.
  destruct (token_of req ≫= _) as [session|]; cbn.
  - eexists. split; [done|]. cbn.
    destruct (logout_loop_spec (SESSIONS st) (s_id session) (SESSIONS st))
      as [[-> _]|(sid0 & data0 & Hin & Hid & ->)]; [by split_and!|].
    split_and!; [done|by apply dict_del_NoDup|..].
    + intros sid d. rewrite dict_get_del. by destruct (String.eqb sid0 sid).
    + intros sid d Hget Hne. rewrite dict_get_del.
      destruct (String.eqb_spec sid0 sid) as [->|]; [|done].
      rewrite (dict_get_elem _ _ _ Hnd Hin) in Hget. congruence.
  - eexists. by split_and!.
Qed.

(** Every request is answered: the handlers return a response and a
    state, and they keep the keys of the registry distinct. *)
Lemma do_GET_returns (req : request) (st : state) :
  ∃ resp st', GET req st = Returns (resp, st') ∧ db st' = db st ∧
    (NoDup (SESSIONS st).*1 → NoDup (SESSIONS st').*1).
Proof.
  unfold do_GET, handle_logout. rewrite !get_session_lookup. cbn.
  repeat case_match; eexists _, _; (split; [done|]); cbn; split; try done.
  intros Hnd.
  destruct (logout_loop_spec (SESSIONS st) (s_id s) (SESSIONS st))
    as [[-> _]|(? & ? & _ & _ & ->)]; [done|by apply dict_del_NoDup].
Qed.

Lemma do_POST_returns (req : request) (st : state) :
  ∃ resp st', POST req st = Returns (resp, st') ∧
    (NoDup (SESSIONS st).*1 → NoDup (SESSIONS st').*1).
Proof.
  unfold do_POST, handle_register_tenant, handle_login, handle_new_patient,
    insert_tenant, set_session.
  rewrite !get_session_lookup. cbn.
  repeat case_match; simplify_eq/=; eexists _, _; (split; [done|]); cbn;
    try done; by apply dict_set_NoDup.
Qed.

End Registry.

(** ** The store and the handlers *)

Lemma select_patients_views (tenant_id : Z) (db : database) :
  (λ row : string * option string * option string,
     {| v_name := row.1.1;
        v_date_of_birth := or_empty row.1.2;
        v_notes := or_empty row.2 |}) <$> select_patients tenant_id db
  = patient_view_of <$> of_tenant tenant_id (patients db).
Proof. unfold select_patients, of_tenant. by rewrite <- list_fmap_compose. Qed.

Lemma of_tenant_app (tenant_id : Z) (l1 l2 : list patient_row) :
  of_tenant tenant_id (l1 ++ l2) = of_tenant tenant_id l1 ++ of_tenant tenant_id l2.
Proof. apply filter_app. Qed.

Section Handlers.

Variable cookie_load : string → outcome (gmap string string).
Variable guess_type : string → string.
Variable root : node.
Variable cwd : list string.
Variable dirname : string.

Abbreviation session_of := (get_session cookie_load).
Abbreviation GET := (do_GET cookie_load guess_type root cwd dirname).
Abbreviation POST := (do_POST cookie_load).

Lemma render_dashboard_page (session : session) (st : state) :
  render_dashboard session st =
    dashboard_page session
      (patient_view_of <$> of_tenant (s_tenant_id session) (patients (db st))).
Proof.
  unfold render_dashboard, dashboard_page, respond.
  by rewrite select_patients_views.
Qed.

(** X17. On the patient routes, with a valid session: GET /dashboard lists
    exactly the patients whose tenant id is the session's, so the page is
    the same over any store with the same patients of that tenant; POST
    /patients/new with a name that is not empty after trimming adds exactly
    one patient, with the session's tenant id and that name, and with an
    empty name changes nothing; the registry, the tenants, the users and
    the patients of every other tenant are unchanged. *)
Theorem tenant_isolation (cookie : option string) (data : form) (token : string)
    (st : state) (session : session) :
  let req p := {| path := p; Cookie := cookie; post_data := data; uuid4 := token |} in
  session_of (req "/dashboard") (SESSIONS st) = Returns (Some session) →
  let A := s_tenant_id session in
  GET (req "/dashboard") st =
    Returns (dashboard_page session (patient_view_of <$> of_tenant A (patients (db st))), st) ∧
  (∀ p, p ∈ of_tenant A (patients (db st)) → p_tenant_id p = A) ∧
  (∀ db2, of_tenant A (patients db2) = of_tenant A (patients (db st)) →
     let st2 := {| db := db2; SESSIONS := SESSIONS st |} in
     GET (req "/dashboard") st2 =
       Returns (dashboard_page session (patient_view_of <$> of_tenant A (patients (db st))), st2)) ∧
  ∃ resp st', POST (req "/patients/new") st = Returns (resp, st') ∧
    SESSIONS st' = SESSIONS st ∧
    tenants (db st') = tenants (db st) ∧ users (db st') = users (db st) ∧
    (patients (db st') = patients (db st) ∨
     ∃ p, patients (db st') = patients (db st) ++ [p] ∧ p_tenant_id p = A) ∧
    (strip (field data "name") = "" → st' = st) ∧
    (strip (field data "name") ≠ "" →
     ∃ p, patients (db st') = patients (db st) ++ [p] ∧ p_tenant_id p = A ∧
       p_name p = strip (field data "name")) ∧
    (∀ B, B ≠ A → of_tenant B (patients (db st')) = of_tenant B (patients (db st))).
Proof.
  intros req Hs A. rewrite get_session_lookup in Hs. injection Hs as Hs.
  unfold do_GET, do_POST, handle_new_patient. rewrite !get_session_lookup.
  unfold presented_token in *. cbn in *. rewrite Hs. cbn.
  rewrite !render_dashboard_page. cbn. fold A. split_and!.
  - done.
  - intros p Hp. by apply list_elem_of_filter in Hp as [? _].
  - intros db2 Hdb. cbn. rewrite get_session_lookup.
    unfold presented_token. cbn. rewrite Hs. cbn.
    rewrite render_dashboard_page. cbn. unfold A in *. by rewrite Hdb.
  - destruct (truthy (strip (field data "name"))) eqn:Hn; cbn.
    + apply truthy_true in Hn.
      eexists _, _. split; [done|]. cbn.
      split_and!; [done|done|done|right; eauto|done|intros _; eauto|].
      intros B HB. rewrite of_tenant_app. unfold of_tenant at 2.
      rewrite filter_cons_False by (cbn; congruence).
      by rewrite filter_nil, app_nil_r.
    + apply truthy_false in Hn.
      eexists _, _. split; [done|]. by split_and!; [| | |left| | |].
Qed.

(** C7. With a valid session and a name that is not empty after trimming,
    POST /patients/new stores the patient under the session's tenant with
    an empty date of birth or notes as null and redirects to /dashboard;
    the dashboard of that tenant then lists what it listed before, followed
    by the patient with the trimmed name and the date of birth and notes as
    they were sent (null shown as the empty string). *)
Theorem patient_round_trip (cookie cookie' : option string) (data data' : form)
    (token token' : string) (st : state) (session session' : session) :
  let req := {| path := "/patients/new"; Cookie := cookie; post_data := data; uuid4 := token |} in
  let req' := {| path := "/dashboard"; Cookie := cookie'; post_data := data'; uuid4 := token' |} in
  let name := strip (field data "name") in
  let dob := field data "date_of_birth" in
  let notes := field data "notes" in
  session_of req (SESSIONS st) = Returns (Some session) →
  name ≠ "" →
  ∃ st', POST req st = Returns (Found302 None "/dashboard", st') ∧
    SESSIONS st' = SESSIONS st ∧
    (∃ rowid, patients (db st') = patients (db st) ++
       [{| p_id := rowid; p_tenant_id := s_tenant_id session; p_name := name;
           p_date_of_birth := if decide (dob = "") then None else Some dob;
           p_notes := if decide (notes = "") then None else Some notes |}]) ∧
    (session_of req' (SESSIONS st) = Returns (Some session') →
     s_tenant_id session' = s_tenant_id session →
     GET req' st' =
       Returns (dashboard_page session'
                  ((patient_view_of <$> of_tenant (s_tenant_id session) (patients (db st)))
                   ++ [{| v_name := name; v_date_of_birth := dob; v_notes := notes |}]),
                st')).
Proof.
  intros req req' name dob notes Hs Hname.
  unfold do_POST, handle_new_patient. cbn. rewrite Hs. cbn. fold name dob notes.
  apply truthy_true in Hname. rewrite Hname. cbn.
  eexists. split; [done|]. cbn. split_and!; [done|..].
  - eexists. do 3 f_equal. f_equal.
    + unfold or_none. destruct dob; by cbn.
    + unfold or_none. destruct notes; by cbn.
  - intros Hs' Htid. unfold do_GET. cbn. rewrite Hs'. cbn.
    rewrite render_dashboard_page. cbn. rewrite Htid.
    rewrite of_tenant_app. unfold of_tenant at 2.
    rewrite filter_cons_True by done. rewrite filter_nil, fmap_app. cbn.
    unfold patient_view_of at 2. cbn. by rewrite !or_empty_or_none.
Qed.

(** What POST /register-tenant does with four fields that pass the
    presence check. *)
Lemma register_tenant_valid (cookie : option string) (data : form) (token : string)
    (st : state) :
  let req := {| path := "/register-tenant"; Cookie := cookie; post_data := data; uuid4 := token |} in
  let tenant_name := strip (field data "tenantName") in
  let admin_name := strip (field data "adminName") in
  let admin_email := strip (field data "adminEmail") in
  let admin_password := field data "adminPassword" in
  tenant_name ≠ "" → admin_name ≠ "" → admin_email ≠ "" → admin_password ≠ "" →
  POST req st =
    if existsb (λ t, String.eqb (t_name t) tenant_name) (tenants (db st)) then
      Returns (error_page "register_tenant.html" "Organisation name already exists.", st)
    else
      let tenant_id := next_rowid (t_id <$> tenants (db st)) in
      let user_id := next_rowid (u_id <$> users (db st)) in
      Returns
        (Found302 (Some (SessionCookie token)) "/dashboard",
         {| db :=
              {| tenants := tenants (db st) ++ [{| t_id := tenant_id; t_name := tenant_name |}];
                 users := users (db st) ++
                   [{| u_id := user_id; u_tenant_id := tenant_id; u_name := admin_name;
                       u_email := admin_email; u_password := admin_password |}];
                 patients := patients (db st) |};
            SESSIONS :=
              dict_set token
                {| s_id := user_id; s_user_name := admin_name;
                   s_tenant_id := tenant_id; s_tenant_name := tenant_name |}
                (SESSIONS st) |}).
Proof.
  intros req tenant_name admin_name admin_email admin_password
    H1%truthy_true H2%truthy_true H3%truthy_true H4%truthy_true.
  unfold do_POST, handle_register_tenant. cbn.
  fold tenant_name admin_name admin_email admin_password.
  rewrite H1, H2, H3, H4. cbn. unfold insert_tenant.
  by destruct (existsb _ _).
Qed.

(** What POST /register-tenant does when a field fails the presence
    check. *)
Lemma register_tenant_invalid (cookie : option string) (data : form) (token : string)
    (st : state) :
  let req := {| path := "/register-tenant"; Cookie := cookie; post_data := data; uuid4 := token |} in
  strip (field data "tenantName") = "" ∨ strip (field data "adminName") = "" ∨
  strip (field data "adminEmail") = "" ∨ field data "adminPassword" = "" →
  POST req st =
    Returns (error_page "register_tenant.html" "All fields are required.", st).
Proof.
  intros req H. unfold do_POST, handle_register_tenant. cbn.
  destruct H as [H|[H|[H|H]]]; apply truthy_false in H; rewrite H; cbn;
    by rewrite ?orb_true_r.
Qed.

(** C9. POST /register-tenant answers with the form and the error "All
    fields are required.", and creates no tenant, user or session, exactly
    when the tenant name, the admin name or the email is empty after
    trimming or the password, taken as it is, is empty. A tenant name of
    white space alone fails; any non-empty password passes, one of white
    space alone too, and the request then goes on to the duplicate-name page
    or to the 302 redirect of a successful registration. *)
Theorem register_validation (cookie : option string) (data : form) (token : string)
    (st : state) :
  let req := {| path := "/register-tenant"; Cookie := cookie; post_data := data; uuid4 := token |} in
  let tenant_name := strip (field data "tenantName") in
  let admin_name := strip (field data "adminName") in
  let admin_email := strip (field data "adminEmail") in
  let admin_password := field data "adminPassword" in
  let required := error_page "register_tenant.html" "All fields are required." in
  (tenant_name = "" ∨ admin_name = "" ∨ admin_email = "" ∨ admin_password = ""
   ↔ POST req st = Returns (required, st)) ∧
  (forallb is_space (list_ascii_of_string (field data "tenantName")) = true →
   POST req st = Returns (required, st)) ∧
  (tenant_name ≠ "" → admin_name ≠ "" → admin_email ≠ "" →
   admin_password ≠ "" →
   POST req st =
     Returns (error_page "register_tenant.html" "Organisation name already exists.", st) ∨
   ∃ st', POST req st = Returns (Found302 (Some (SessionCookie token)) "/dashboard", st')).
Proof using cookie_load.
  clear guess_type root cwd dirname.
  intros req tenant_name admin_name admin_email admin_password required.
  pose proof (register_tenant_invalid cookie data token st) as Hfail.
  cbn zeta in Hfail.
  split_and!.
  - split; [done|]. intros Hpost.
    destruct (decide (tenant_name = "")) as [|H1]; [tauto|].
    destruct (decide (admin_name = "")) as [|H2]; [tauto|].
    destruct (decide (admin_email = "")) as [|H3]; [tauto|].
    destruct (decide (admin_password = "")) as [|H4]; [tauto|].
    exfalso. pose proof (register_tenant_valid cookie data token st H1 H2 H3 H4) as Hv.
    cbn zeta in Hv. fold req tenant_name in Hv. rewrite Hv in Hpost.
    destruct (existsb _ _); discriminate.
  - intros Hsp. apply Hfail. left. by apply strip_spaces.
  - intros H1 H2 H3 H4.
    pose proof (register_tenant_valid cookie data token st H1 H2 H3 H4) as Hv.
    cbn zeta in Hv. fold req tenant_name in Hv. rewrite Hv.
    destruct (existsb _ _); [by left|right; eauto].
Qed.

(** C4, as the code has it. When a tenant with the submitted name (after
    trimming) exists, POST /register-tenant re-renders the registration
    form (HTTP 200) with an error and leaves the store and the registry as
    they were, whatever the admin fields are; the error is "Organisation
    name already exists." when the four fields pass the presence check, and
    "All fields are required." when one of them fails it. *)
Theorem duplicate_registration_rejected (cookie : option string) (data : form)
    (token : string) (st : state) :
  let req := {| path := "/register-tenant"; Cookie := cookie; post_data := data; uuid4 := token |} in
  let tenant_name := strip (field data "tenantName") in
  (∃ t, t ∈ tenants (db st) ∧ t_name t = tenant_name) →
  (∃ message, POST req st = Returns (error_page "register_tenant.html" message, st)) ∧
  (tenant_name = "" ∨ strip (field data "adminName") = "" ∨
   strip (field data "adminEmail") = "" ∨ field data "adminPassword" = "" →
   POST req st =
     Returns (error_page "register_tenant.html" "All fields are required.", st)) ∧
  (tenant_name ≠ "" → strip (field data "adminName") ≠ "" →
   strip (field data "adminEmail") ≠ "" → field data "adminPassword" ≠ "" →
   POST req st =
     Returns (error_page "register_tenant.html" "Organisation name already exists.", st)).
Proof using cookie_load.
  clear guess_type root cwd dirname.
  intros req tenant_name (t & Hin & Ht).
  assert (Hex : existsb (λ t, String.eqb (t_name t) tenant_name) (tenants (db st)) = true).
  { apply existsb_exists. exists t. split; [by apply list_elem_of_In|].
    by apply String.eqb_eq. }
  assert (Hdup : tenant_name ≠ "" → strip (field data "adminName") ≠ "" →
    strip (field data "adminEmail") ≠ "" → field data "adminPassword" ≠ "" →
    POST req st =
      Returns (error_page "register_tenant.html" "Organisation name already exists.", st)).
  { intros H1 H2 H3 H4.
    pose proof (register_tenant_valid cookie data token st H1 H2 H3 H4) as Hv.
    cbn zeta in Hv. fold req tenant_name in Hv. by rewrite Hv, Hex. }
  pose proof (register_tenant_invalid cookie data token st) as Hreq.
  cbn zeta in Hreq. fold req tenant_name in Hreq.
  split_and!; [|done..].
  destruct (decide (tenant_name = "")) as [|H1]; [eexists; apply Hreq; tauto|].
  destruct (decide (strip (field data "adminName") = "")) as [|H2];
    [eexists; apply Hreq; tauto|].
  destruct (decide (strip (field data "adminEmail") = "")) as [|H3];
    [eexists; apply Hreq; tauto|].
  destruct (decide (field data "adminPassword" = "")) as [|H4];
    [eexists; apply Hreq; tauto|].
  eexists. by apply Hdup.
Qed.

(** C5, as the code has it. For two POST /login requests whose three
    fields pass the presence check and that name an existing tenant, one
    with an email that matches no user of the tenant and one with an email
    that matches a user but a password other than the stored one, the
    answer is the same page with the same error text, "Invalid
    credentials."; neither creates a session. *)
Theorem login_indistinguishable (cookie1 cookie2 : option string) (data1 data2 : form)
    (token1 token2 : string) (st : state) (tenant_id : Z) :
  let req1 := {| path := "/login"; Cookie := cookie1; post_data := data1; uuid4 := token1 |} in
  let req2 := {| path := "/login"; Cookie := cookie2; post_data := data2; uuid4 := token2 |} in
  let invalid := error_page "login.html" "Invalid credentials." in
  strip (field data1 "tenantName") ≠ "" ∧ strip (field data1 "email") ≠ "" ∧
    field data1 "password" ≠ "" →
  strip (field data2 "tenantName") ≠ "" ∧ strip (field data2 "email") ≠ "" ∧
    field data2 "password" ≠ "" →
  select_tenant (strip (field data1 "tenantName")) (db st) = Some tenant_id →
  select_tenant (strip (field data2 "tenantName")) (db st) = Some tenant_id →
  select_user tenant_id (strip (field data1 "email")) (db st) = None →
  (∃ user_id user_name stored,
     select_user tenant_id (strip (field data2 "email")) (db st) =
       Some (user_id, user_name, stored) ∧
     stored ≠ field data2 "password") →
  POST req1 st = Returns (invalid, st) ∧ POST req2 st = Returns (invalid, st).
Proof.
  intros req1 req2 invalid (T1 & E1 & P1) (T2 & E2 & P2) Ht1 Ht2 Hnone
    (user_id & user_name & stored & Hsome & Hne).
  apply truthy_true in T1, E1, P1, T2, E2, P2.
  unfold do_POST, handle_login. cbn.
  rewrite T1, E1, P1, T2, E2, P2. cbn.
  rewrite Ht1, Ht2, Hnone, Hsome.
  apply String.eqb_neq in Hne. by rewrite Hne.
Qed.

End Handlers.

(** ** Static files *)

(** A static file is answered with 200 and its contents when the joined
    path resolves to a regular file, and with the 404 error otherwise. *)
Lemma serve_static_spec (guess_type : string → string) (root : node)
    (cwd : list string) (dirname path : string) :
  let file_path := path_join dirname (lstrip_slash path) in
  serve_static guess_type root cwd dirname path =
    match resolve root cwd file_path ≫= node_at root with
    | Some (File data) => File200 (guess_type file_path) data
    | _ => Error 404 "File Not Found"
    end.
Proof.
  intros file_path. unfold serve_static, isfile, read_file. fold file_path.
  by destruct (resolve root cwd file_path ≫= node_at root) as [[]|].
Qed.

(** C3, at a path with a parent-directory component. GET
    /public/../database.sqlite starts with /public/ and is answered with
    200 and the contents of the database file, which is next to
    [server.py] and not inside the public directory. *)
Theorem static_file_outside_public :
  let path := "/public/../database.sqlite" in
  let file_path := path_join example_dirname (lstrip_slash path) in
  startswith path "/public/" = true ∧
  example_GET (get path None) example_state =
    Returns (File200 "application/octet-stream" "SQLite format 3", example_state) ∧
  file_path = "/srv/medsynq/public/../database.sqlite" ∧
  resolve example_root example_cwd file_path = Some ["srv"; "medsynq"; "database.sqlite"] ∧
  resolve example_root example_cwd (PUBLIC_DIR example_dirname) =
    Some ["srv"; "medsynq"; "public"] ∧
  inside ["srv"; "medsynq"; "public"] ["srv"; "medsynq"; "database.sqlite"] = false.
Proof. by vm_compute. Qed.

(** C1, at the static route. Al's session is bound to tenant 1, and the
    store holds a patient of tenant 2. GET /public/../database.sqlite with
    Al's cookie is answered before any session check, with 200 and the
    contents of the file at [DB_PATH]: the database file, in which the rows
    of every tenant are kept. *)
Theorem database_file_served_to_session :
  let req := get "/public/../database.sqlite" (Some "session_id=t1") in
  let file_path := path_join example_dirname (lstrip_slash (path req)) in
  let db_location := ["srv"; "medsynq"; "database.sqlite"] in
  get_session example_cookie_load req (SESSIONS example_state) = Returns (Some al) ∧
  s_tenant_id al = 1 ∧
  (∃ p, p ∈ patients (db example_state) ∧ p_tenant_id p = 2) ∧
  resolve example_root example_cwd (DB_PATH example_dirname) = Some db_location ∧
  resolve example_root example_cwd file_path = Some db_location ∧
  node_at example_root db_location = Some (File "SQLite format 3") ∧
  example_GET req example_state =
    Returns (File200 "application/octet-stream" "SQLite format 3", example_state).
Proof.
  cbn zeta. split_and!; try by vm_compute.
  eexists. split; [right; left|done].
Qed.

(** ** Runs of the handler *)

(** C2, with two sessions of one user. Al logs in twice and gets the
    tokens t1 and t2. GET /logout with the cookie session_id=t2 deletes t1,
    the first entry of Al in the registry, and stops: t2 stays, its lookup
    still gives Al's session, and GET /dashboard with it still renders the
    dashboard. *)
Theorem logout_keeps_presented_token :
  let login token := post "/login" None
    [("tenantName", "Acme"); ("email", "al@acme.test"); ("password", "pw")] token in
  let logout := get "/logout" (Some "session_id=t2") in
  let st0 := {| db := example_db; SESSIONS := [] |} in
  let st1 := {| db := example_db; SESSIONS := [("t1", al)] |} in
  let st2 := {| db := example_db; SESSIONS := [("t1", al); ("t2", al)] |} in
  let st3 := {| db := example_db; SESSIONS := [("t2", al)] |} in
  example_POST (login "t1") st0 =
    Returns (Found302 (Some (SessionCookie "t1")) "/dashboard", st1) ∧
  example_POST (login "t2") st1 =
    Returns (Found302 (Some (SessionCookie "t2")) "/dashboard", st2) ∧
  get_session example_cookie_load logout (SESSIONS st2) = Returns (Some al) ∧
  example_GET logout st2 = Returns (Found302 (Some ExpiredCookie) "/", st3) ∧
  get_session example_cookie_load logout (SESSIONS st3) = Returns (Some al) ∧
  example_GET (get "/dashboard" (Some "session_id=t2")) st3 =
    Returns (dashboard_page al
               [{| v_name := "Jane"; v_date_of_birth := ""; v_notes := "flu" |}], st3).
Proof. by vm_compute. Qed.

(** C4 fails as stated: Acme exists, and a registration for Acme whose
    admin name is missing is answered with "All fields are required.", not
    with the duplicate-name page. *)
Lemma duplicate_registration_counterexample :
  let req := post "/register-tenant" None
    [("tenantName", "Acme"); ("adminEmail", "al@acme.test"); ("adminPassword", "pw")] "t9" in
  (∃ t, t ∈ tenants (db example_state) ∧ t_name t = "Acme") ∧
  example_POST req example_state =
    Returns (error_page "register_tenant.html" "All fields are required.", example_state) ∧
  example_POST req example_state ≠
    Returns (error_page "register_tenant.html" "Organisation name already exists.",
             example_state).
Proof.
  split_and!.
  - eexists. split; [left|done].
  - by vm_compute.
  - by vm_compute.
Qed.

(** C5 fails as stated: for the existing tenant Acme, a login whose email
    is white space alone matches no user and is answered with "All fields
    are required.", while a login with Al's email and a wrong password is
    answered with "Invalid credentials."; a login with Al's email and no
    password, which differs from the stored one, is answered with "All
    fields are required." too. *)
Lemma login_counterexample :
  let req1 := post "/login" None
    [("tenantName", "Acme"); ("email", "  "); ("password", "pw")] "t9" in
  let req2 := post "/login" None
    [("tenantName", "Acme"); ("email", "al@acme.test"); ("password", "nope")] "t9" in
  let req3 := post "/login" None
    [("tenantName", "Acme"); ("email", "al@acme.test")] "t9" in
  let required := error_page "login.html" "All fields are required." in
  let invalid := error_page "login.html" "Invalid credentials." in
  select_tenant "Acme" example_db = Some 1 ∧
  select_user 1 "  " example_db = None ∧
  select_user 1 (strip "  ") example_db = None ∧
  select_user 1 "al@acme.test" example_db = Some (1, "Al", "pw") ∧
  field (post_data req2) "password" ≠ "pw" ∧
  field (post_data req3) "password" ≠ "pw" ∧
  example_POST req1 example_state = Returns (required, example_state) ∧
  example_POST req2 example_state = Returns (invalid, example_state) ∧
  example_POST req3 example_state = Returns (required, example_state) ∧
  required ≠ invalid.
Proof. by vm_compute. Qed.

(** ** Instances of the theorems *)


Lemma session_gate_witness :
  example_GET (get "/dashboard" (Some "session_id=t0")) example_state =
    Returns (Found302 None "/login", example_state) ∧
  example_POST (post "/patients/new" None [("name", "Jane")] "") example_state =
    Returns (Found302 None "/login", example_state).
Proof.
  split.
  - apply (session_gate example_cookie_load example_guess_type example_root
             example_cwd example_dirname (Some "session_id=t0") ∅ "" example_state).
    by vm_compute.
  - apply (session_gate example_cookie_load example_guess_type example_root
             example_cwd example_dirname None
             (post_data (post "/patients/new" None [("name", "Jane")] "")) ""
             example_state).
    reflexivity.
Defined.

Lemma logout_frame_witness :
  NoDup (SESSIONS example_state).*1 ∧
  ∃ st', example_GET (get "/logout" (Some "session_id=t1")) example_state =
           Returns (Found302 (Some ExpiredCookie) "/", st') ∧
         dict_get "t3" (SESSIONS st') = Some bo.
Proof.
  assert (Hnd : NoDup (SESSIONS example_state).*1) by compute_done.
  split; [exact Hnd|].
  destruct (logout_frame example_cookie_load example_guess_type example_root
              example_cwd example_dirname (Some "session_id=t1") ∅ "" example_state Hnd)
    as (st' & Hget & _ & _ & _ & Hframe).
  exists st'. split; [exact Hget|].
  apply (Hframe "t3" bo); [reflexivity|]. by vm_compute.
Defined.

Lemma tenant_isolation_witness :
  get_session example_cookie_load (get "/dashboard" (Some "session_id=t3"))
    (SESSIONS example_state) = Returns (Some bo) ∧
  example_GET (get "/dashboard" (Some "session_id=t3")) example_state =
    Returns (dashboard_page bo
               [{| v_name := "Rex"; v_date_of_birth := "1980-05-05"; v_notes := "" |}],
             example_state).
Proof.
  assert (Hs : get_session example_cookie_load (get "/dashboard" (Some "session_id=t3"))
                 (SESSIONS example_state) = Returns (Some bo)) by (by vm_compute).
  split; [exact Hs|].
  exact (proj1 (tenant_isolation example_cookie_load example_guess_type example_root
                  example_cwd example_dirname (Some "session_id=t3") ∅ ""
                  example_state bo Hs)).
Defined.

(** The patient Jane Doe, born 1990-01-01, without notes. *)
Lemma patient_round_trip_witness :
  let data := post_data (post "/patients/new" None
    [("name", "Jane Doe"); ("date_of_birth", "1990-01-01")] "") in
  field data "notes" = "" ∧
  ∃ st',
    example_POST {| path := "/patients/new"; Cookie := Some "session_id=t1";
                    post_data := data; uuid4 := "" |} example_state =
      Returns (Found302 None "/dashboard", st') ∧
    example_GET (get "/dashboard" (Some "session_id=t2")) st' =
      Returns (dashboard_page al
                 [{| v_name := "Jane"; v_date_of_birth := ""; v_notes := "flu" |};
                  {| v_name := "Jane Doe"; v_date_of_birth := "1990-01-01";
                     v_notes := "" |}], st').
Proof.
  intros data. split; [reflexivity|].
  destruct (patient_round_trip example_cookie_load example_guess_type example_root
              example_cwd example_dirname (Some "session_id=t1") (Some "session_id=t2")
              data ∅ "" "" example_state al al)
    as (st' & Hpost & _ & _ & Hget); [by vm_compute..|].
  exists st'. split; [exact Hpost|].
  apply Hget; reflexivity.
Defined.

Lemma register_validation_witness :
  let data := post_data (post "/register-tenant" None
    [("tenantName", "Zed"); ("adminName", "Zoe"); ("adminEmail", "zoe@zed.test");
     ("adminPassword", " ")] "t9") in
  let req := {| path := "/register-tenant"; Cookie := None; post_data := data;
                uuid4 := "t9" |} in
  example_POST req example_state =
    Returns (error_page "register_tenant.html" "Organisation name already exists.",
             example_state) ∨
  ∃ st', example_POST req example_state =
           Returns (Found302 (Some (SessionCookie "t9")) "/dashboard", st').
Proof.
  intros data req.
  apply (register_validation example_cookie_load None data "t9" example_state);
    by vm_compute.
Defined.

Lemma duplicate_registration_rejected_witness :
  let data := post_data (post "/register-tenant" None
    [("tenantName", " Acme "); ("adminName", "Zoe"); ("adminEmail", "zoe@zed.test");
     ("adminPassword", "pw")] "t9") in
  example_POST {| path := "/register-tenant"; Cookie := None; post_data := data;
                  uuid4 := "t9" |} example_state =
    Returns (error_page "register_tenant.html" "Organisation name already exists.",
             example_state).
Proof.
  intros data.
  apply (duplicate_registration_rejected example_cookie_load None data "t9" example_state).
  - exists {| t_id := 1; t_name := "Acme" |}. split; [left|reflexivity].
  - by vm_compute.
  - by vm_compute.
  - by vm_compute.
  - by vm_compute.
Defined.

Lemma login_indistinguishable_witness :
  let data1 := post_data (post "/login" None
    [("tenantName", "Acme"); ("email", "eve@acme.test"); ("password", "pw")] "") in
  let data2 := post_data (post "/login" None
    [("tenantName", "Acme"); ("email", "al@acme.test"); ("password", "pw2")] "") in
  let invalid := error_page "login.html" "Invalid credentials." in
  example_POST {| path := "/login"; Cookie := None; post_data := data1; uuid4 := "" |}
    example_state = Returns (invalid, example_state) ∧
  example_POST {| path := "/login"; Cookie := None; post_data := data2; uuid4 := "" |}
    example_state = Returns (invalid, example_state).
Proof.
  intros data1 data2 invalid.
  apply (login_indistinguishable example_cookie_load None None data1 data2 "" ""
           example_state 1).
  - by vm_compute.
  - by vm_compute.
  - reflexivity.
  - reflexivity.
  - reflexivity.
  - exists 1, "Al", "pw". split; [reflexivity|by vm_compute].
Defined.

(** ** Trimming *)

Lemma lstrip_head (s : string) :
  match lstrip s with
  | EmptyString => True
  | String c _ => is_space c = false
  end.
Proof.
  induction s as [|c s IH]; simpl; [done|].
  destruct (is_space c) eqn:E; [done|]. simpl. done.
Qed.

Lemma rstrip_head (c : ascii) (s : string) :
  is_space c = false → rstrip (String c s) = String c (rstrip s).
Proof. intros Hc. simpl. destruct (rstrip s); by rewrite ?Hc. Qed.

Lemma rstrip_idem (s : string) : rstrip (rstrip s) = rstrip s.
Proof.
  induction s as [|c s IH]; simpl; [done|].
  destruct (rstrip s) as [|d r] eqn:E.
  - destruct (is_space c) eqn:Hc; simpl; by rewrite ?Hc.
  - change (rstrip (String c (String d r))) with
      (match rstrip (String d r) with
       | EmptyString => if is_space c then EmptyString else String c EmptyString
       | r' => String c r'
       end).
    by rewrite IH.
Qed.

(** Trimming twice is trimming once. *)
Lemma strip_idem (s : string) : strip (strip s) = strip s.
Proof.
  unfold strip. pose proof (lstrip_head s) as H.
  destruct (lstrip s) as [|c t]; [done|].
  rewrite (rstrip_head c t H). simpl lstrip. rewrite H.
  rewrite <- (rstrip_head c t H). apply rstrip_idem.
Qed.

Lemma strip_trimmed (s : string) : strip s ≠ "" → trimmed (strip s).
Proof. intros H. split; [done|apply strip_idem]. Qed.

(** ** Row ids *)

Lemma next_rowid_above (ids : list Z) (x : Z) : x ∈ ids → x < next_rowid ids.
Proof.
  unfold next_rowid. induction ids as [|y ids IH]; simpl.
  - by intros ?%elem_of_nil.
  - intros [->|Hin]%elem_of_cons; [lia|]. specialize (IH Hin). lia.
Qed.

Lemma next_rowid_fresh (ids : list Z) : next_rowid ids ∉ ids.
Proof. intros H%next_rowid_above. lia. Qed.

(** ** What the handlers do to the state *)

Lemma or_none_not_empty (s : string) : or_none s ≠ Some "".
Proof. by destruct s. Qed.

Lemma dict_get_Some_elem {V} (k : string) (v : V) (d : dict V) :
  dict_get k d = Some v → (k, v) ∈ d.
Proof.
  induction d as [|[k0 v0] d IH]; simpl; [done|].
  destruct (String.eqb_spec k0 k) as [->|Hne].
  - intros [= ->]. left.
  - intros H. right. auto.
Qed.

Lemma existsb_name_false (name : string) (l : list tenant_row) :
  existsb (λ t, String.eqb (t_name t) name) l = false → name ∉ t_name <$> l.
Proof.
  intros Hex (t & -> & Hin)%list_elem_of_fmap.
  apply not_true_iff_false in Hex. apply Hex, existsb_exists.
  exists t. split; [by apply list_elem_of_In|apply String.eqb_refl].
Qed.

Lemma select_tenant_Some (name : string) (db : database) (tenant_id : Z) :
  select_tenant name db = Some tenant_id →
  ∃ t, t ∈ tenants db ∧ t_name t = name ∧ t_id t = tenant_id.
Proof.
  unfold select_tenant. destruct (find _ _) as [t|] eqn:E; [|done].
  intros [= <-]. apply find_some in E as [Hin Hname].
  exists t. split_and!; [by apply list_elem_of_In|by apply String.eqb_eq|done].
Qed.

Lemma select_user_Some (tenant_id : Z) (email : string) (db : database)
    (user_id : Z) (user_name stored : string) :
  select_user tenant_id email db = Some (user_id, user_name, stored) →
  ∃ u, u ∈ users db ∧ u_tenant_id u = tenant_id ∧ u_email u = email ∧
    u_id u = user_id ∧ u_name u = user_name ∧ u_password u = stored.
Proof.
  unfold select_user. destruct (find _ _) as [u|] eqn:E; [|done].
  intros [= <- <- <-]. apply find_some in E as [Hin [Ht He]%andb_true_iff].
  exists u. split_and!; try done.
  - by apply list_elem_of_In.
  - by apply Z.eqb_eq.
  - by apply String.eqb_eq.
Qed.

Section Effects.

Variable cookie_load : string → outcome (gmap string string).
Variable guess_type : string → string.
Variable root : node.
Variable cwd : list string.
Variable dirname : string.

Abbreviation handle_ := (handle cookie_load guess_type root cwd dirname).
Abbreviation serve_ := (serve_forever cookie_load guess_type root cwd dirname).

Lemma no_cookie_Ok200 (body : html) (session_id location : string) :
  Ok200 body ≠ Found302 (Some (SessionCookie session_id)) location.
Proof. done. Qed.

Lemma handle_register_tenant_effect (req : request) (st : state)
    (resp : response) (st' : state) :
  handle_register_tenant req st = Returns (resp, st') → effect st resp st'.
Proof.
  unfold handle_register_tenant, insert_tenant, set_session.
  destruct (truthy (strip (field (post_data req) "tenantName"))) eqn:H1; cbn;
    [|intros [= <- <-]; by apply effect_none].
  destruct (truthy (strip (field (post_data req) "adminName"))) eqn:H2; cbn;
    [|intros [= <- <-]; by apply effect_none].
  destruct (truthy (strip (field (post_data req) "adminEmail"))) eqn:H3; cbn;
    [|intros [= <- <-]; by apply effect_none].
  destruct (truthy (field (post_data req) "adminPassword")) eqn:H4; cbn;
    [|intros [= <- <-]; by apply effect_none].
  destruct (existsb _ _) eqn:Hex; cbn; intros [= <- <-]; [by apply effect_none|].
  apply truthy_true in H1, H2, H3, H4.
  apply effect_register; auto using strip_trimmed, existsb_name_false.
Qed.

Lemma handle_login_effect (req : request) (st : state)
    (resp : response) (st' : state) :
  handle_login req st = Returns (resp, st') → effect st resp st'.
Proof.
  unfold handle_login, set_session.
  destruct (_ || _); [intros [= <- <-]; by apply effect_none|].
  destruct (select_tenant _ _) as [tenant_id|] eqn:Ht;
    [|intros [= <- <-]; by apply effect_none].
  destruct (select_user _ _ _) as [[[user_id user_name] stored]|] eqn:Hu;
    [|intros [= <- <-]; by apply effect_none].
  destruct (negb _); intros [= <- <-]; [by apply effect_none|].
  apply select_tenant_Some in Ht as (t & Htin & <- & <-).
  apply select_user_Some in Hu as (u & Huin & Hut & _ & <- & <- & _).
  by apply effect_login.
Qed.

Lemma handle_new_patient_effect (req : request) (st : state)
    (resp : response) (st' : state) :
  handle_new_patient cookie_load req st = Returns (resp, st') → effect st resp st'.
Proof.
  unfold handle_new_patient. rewrite get_session_lookup. cbn.
  destruct (presented_token cookie_load req) as [session_id|]; cbn;
    [|intros [= <- <-]; by apply effect_none].
  destruct (dict_get session_id (SESSIONS st)) as [session|] eqn:Hs; cbn;
    [|intros [= <- <-]; by apply effect_none].
  destruct (truthy _) eqn:Hn; cbn; intros [= <- <-]; [|by apply effect_none].
  apply truthy_true in Hn.
  eapply effect_patient; eauto using strip_trimmed, or_none_not_empty.
Qed.

Lemma handle_logout_effect (req : request) (st : state)
    (resp : response) (st' : state) :
  handle_logout cookie_load req st = Returns (resp, st') → effect st resp st'.
Proof.
  unfold handle_logout. rewrite get_session_lookup. cbn. destruct st as [d S]. cbn.
  destruct (_ ≫= _) as [session|]; intros [= <- <-]; [|by apply effect_none].
  destruct (logout_loop_spec S (s_id session) S)
    as [[-> _]|(sid & data & Hin & _ & ->)]; [by apply effect_none|].
  by apply (effect_logout {| db := d; SESSIONS := S |} sid data).
Qed.

(** Each request does one of the five things of [effect]. *)
Lemma handle_effect (m : method) (req : request) (st : state)
    (resp : response) (st' : state) :
  handle_ m req st = Returns (resp, st') → effect st resp st'.
Proof.
  destruct m; unfold handle.
  - unfold do_GET. destruct (startswith _ _).
    { intros [= <- <-]. apply effect_none. intros ??. rewrite serve_static_spec.
      cbn. by repeat case_match. }
    rewrite get_session_lookup. cbn.
    repeat case_match; try (intros [= <- <-]; by apply effect_none).
    apply handle_logout_effect.
  - unfold do_POST. repeat case_match.
    + apply handle_register_tenant_effect.
    + apply handle_login_effect.
    + apply handle_new_patient_effect.
    + intros [= <- <-]. by apply effect_none.
Qed.

Lemma handle_returns (m : method) (req : request) (st : state) :
  ∃ resp st', handle_ m req st = Returns (resp, st').
Proof.
  destruct m; unfold handle.
  - destruct (do_GET_returns cookie_load guess_type root cwd dirname req st)
      as (resp & st' & H & _). eauto.
  - destruct (do_POST_returns cookie_load req st) as (resp & st' & H & _). eauto.
Qed.

End Effects.

(** ** Invariants of the state *)

Lemma Forall_dict_set {V} (P : string * V → Prop) (k : string) (v : V) (d : dict V) :
  Forall P d → P (k, v) → Forall P (dict_set k v d).
Proof.
  intros Hd Hv. induction Hd as [|[k0 v0] d H0 Hd IH]; simpl.
  - by constructor.
  - destruct (String.eqb_spec k0 k) as [->|]; by constructor.
Qed.

Lemma Forall_dict_del {V} (P : string * V → Prop) (k : string) (d : dict V) :
  Forall P d → Forall P (dict_del k d).
Proof.
  intros Hd. induction Hd as [|[k0 v0] d H0 Hd IH]; simpl; [done|].
  destruct (String.eqb k0 k); [done|by constructor].
Qed.

Lemma session_valid_mono (db1 db2 : database) (s : session) :
  tenants db1 ⊆ tenants db2 → users db1 ⊆ users db2 →
  session_valid db1 s → session_valid db2 s.
Proof.
  intros Ht Hu [H1 H2]. split.
  - apply list_elem_of_fmap in H1 as (t & ? & ?). apply list_elem_of_fmap. eauto.
  - apply list_elem_of_fmap in H2 as (u & ? & ?). apply list_elem_of_fmap. eauto.
Qed.

Lemma session_valid_rows (db : database) (t : tenant_row) (u : user_row) :
  t ∈ tenants db → u ∈ users db → u_tenant_id u = t_id t →
  session_valid db {| s_id := u_id u; s_user_name := u_name u;
                      s_tenant_id := t_id t; s_tenant_name := t_name t |}.
Proof.
  intros Ht Hu Hut. split; apply list_elem_of_fmap; cbn.
  - by exists t.
  - exists u. by rewrite Hut.
Qed.

Lemma session_valid_tenant (db : database) (s : session) :
  session_valid db s → s_tenant_id s ∈ t_id <$> tenants db.
Proof.
  intros [(t & [= -> _] & Hin)%list_elem_of_fmap _].
  apply list_elem_of_fmap. eauto.
Qed.

Lemma effect_references_ok (st : state) (resp : response) (st' : state) :
  effect st resp st' → references_ok st → references_ok st'.
Proof.
  intros He (Hu & Hp & Hs & Hnd).
  destruct He as [resp _|token tn an ae pw _ _ _ _ _ tid uid|token t u Ht Huin Hut
                 |sid session name dob notes Hget _ _ _|sid data Hin];
    unfold references_ok; cbn.
  - done.
  - split_and!.
    + apply Forall_app. split.
      * eapply Forall_impl; [exact Hu|]. cbn. intros u0 H0.
        rewrite fmap_app. apply elem_of_app. by left.
      * apply Forall_singleton. cbn. rewrite fmap_app. apply elem_of_app.
        right. cbn. left.
    + eapply Forall_impl; [exact Hp|]. cbn. intros p0 H0.
      rewrite fmap_app. apply elem_of_app. by left.
    + apply Forall_dict_set.
      * eapply Forall_impl; [exact Hs|]. intros e. apply session_valid_mono; cbn;
          intros x Hx; apply elem_of_app; by left.
      * apply (session_valid_rows _ {| t_id := tid; t_name := tn |}
                 {| u_id := uid; u_tenant_id := tid; u_name := an;
                    u_email := ae; u_password := pw |}); cbn;
          [apply elem_of_app; right; left..|done].
    + by apply dict_set_NoDup.
  - split_and!; [done..| |by apply dict_set_NoDup].
    apply Forall_dict_set; [done|]. by apply session_valid_rows.
  - split_and!; [done| |done..].
    apply Forall_app. split; [done|]. apply Forall_singleton. cbn.
    apply session_valid_tenant.
    apply dict_get_Some_elem in Hget.
    by apply (proj1 (Forall_forall _ _) Hs (sid, session)).
  - split_and!; [done..|by apply Forall_dict_del|by apply dict_del_NoDup].
Qed.

Lemma effect_rows_distinct (st : state) (resp : response) (st' : state) :
  effect st resp st' → rows_distinct (db st) → rows_distinct (db st').
Proof.
  intros He (H1 & H2 & H3 & H4).
  destruct He as [resp _|token tn an ae pw _ _ _ _ Hfresh tid uid|token t u _ _ _
                 |sid session name dob notes _ _ _ _|sid data _];
    unfold rows_distinct; cbn; try done.
  - rewrite !fmap_app. cbn. split_and!; [..|done]; apply NoDup_app;
      (split_and!; [done| |apply NoDup_singleton]);
      intros x Hx ->%list_elem_of_singleton; try done;
      by apply next_rowid_fresh in Hx.
  - rewrite !fmap_app. cbn. split_and!; [done..|]. apply NoDup_app.
    split_and!; [done| |apply NoDup_singleton].
    intros x Hx ->%list_elem_of_singleton. by apply next_rowid_fresh in Hx.
Qed.

Lemma effect_fields_ok (st : state) (resp : response) (st' : state) :
  effect st resp st' → fields_ok (db st) → fields_ok (db st').
Proof.
  intros He (H1 & H2 & H3).
  destruct He as [resp _|token tn an ae pw ? ? ? ? _ tid uid|token t u _ _ _
                 |sid session name dob notes _ ? ? ?|sid data _];
    unfold fields_ok; cbn; try done.
  - split_and!; [..|done]; apply Forall_app; (split; [done|]);
      by apply Forall_singleton.
  - split_and!; [done..|]. apply Forall_app. split; [done|].
    by apply Forall_singleton.
Qed.

Lemma effect_store_grows (st : state) (resp : response) (st' : state) :
  effect st resp st' →
  tenants (db st) `prefix_of` tenants (db st') ∧
  users (db st) `prefix_of` users (db st') ∧
  patients (db st) `prefix_of` patients (db st').
Proof.
  intros []; cbn; split_and!; try done; by apply prefix_app_r.
Qed.

Section Server.

Variable cookie_load : string → outcome (gmap string string).
Variable guess_type : string → string.
Variable root : node.
Variable cwd : list string.
Variable dirname : string.

Abbreviation handle_ := (handle cookie_load guess_type root cwd dirname).
Abbreviation serve_ := (serve_forever cookie_load guess_type root cwd dirname).
Abbreviation GET := (do_GET cookie_load guess_type root cwd dirname).
Abbreviation POST := (do_POST cookie_load).
Abbreviation session_of := (get_session cookie_load).
Abbreviation token_of := (presented_token cookie_load).

(** A property that every request keeps holds after any sequence of
    requests, and every sequence of requests is served. *)
Lemma serve_forever_invariant (P : state → Prop) (requests : list (method * request))
    (st : state) :
  (∀ st resp st', effect st resp st' → P st → P st') →
  P st → ∃ st', serve_ requests st = Returns st' ∧ P st'.
Proof.
  intros Hstep. revert st. induction requests as [|[m req] requests IH]; intros st HP.
  - by exists st.
  - destruct (handle_returns cookie_load guess_type root cwd dirname m req st)
      as (resp & st1 & H1).
    cbn. rewrite H1. cbn. apply IH. eapply Hstep; [|done].
    by eapply handle_effect.
Qed.

(** X1. Referential integrity is kept without the store enforcing it: from a
    state where every user, patient and session names an existing tenant
    (and every session an existing user of that tenant), any sequence of
    requests is served and leads to such a state. *)
Theorem references_kept (requests : list (method * request)) (st : state) :
  references_ok st →
  ∃ st', serve_ requests st = Returns st' ∧ references_ok st'.
Proof.
  apply (serve_forever_invariant references_ok). apply effect_references_ok.
Qed.

(** X2. Row ids stay distinct in each table and tenant names stay distinct
    over any sequence of requests. *)
Theorem rows_distinct_kept (requests : list (method * request)) (st : state) :
  rows_distinct (db st) →
  ∃ st', serve_ requests st = Returns st' ∧ rows_distinct (db st').
Proof.
  apply (serve_forever_invariant (λ st, rows_distinct (db st))).
  apply effect_rows_distinct.
Qed.

(** X3. What the handlers store has passed their presence checks: over any
    sequence of requests, tenant names, user names, emails and patient names
    stay non-empty and free of white space at both ends, passwords stay
    non-empty, and a date of birth or notes is null rather than empty. *)
Theorem fields_kept (requests : list (method * request)) (st : state) :
  fields_ok (db st) →
  ∃ st', serve_ requests st = Returns st' ∧ fields_ok (db st').
Proof.
  apply (serve_forever_invariant (λ st, fields_ok (db st))).
  apply effect_fields_ok.
Qed.

(** X4. No request deletes or changes a row: after any sequence of
    requests each table is the table before, followed by the new rows. *)
Theorem store_only_grows (requests : list (method * request)) (st : state) :
  ∃ st', serve_ requests st = Returns st' ∧
    tenants (db st) `prefix_of` tenants (db st') ∧
    users (db st) `prefix_of` users (db st') ∧
    patients (db st) `prefix_of` patients (db st').
Proof.
  apply (serve_forever_invariant
    (λ st', tenants (db st) `prefix_of` tenants (db st') ∧
            users (db st) `prefix_of` users (db st') ∧
            patients (db st) `prefix_of` patients (db st'))); [|done].
  intros st1 resp st2 He (H1 & H2 & H3).
  destruct (effect_store_grows _ _ _ He) as (G1 & G2 & G3).
  split_and!; by etrans.
Qed.

(** X5. GET is safe: no GET changes the store, and a GET of any path other
    than /logout changes nothing at all. *)
Theorem get_is_safe (req : request) (st : state) :
  ∃ resp st', GET req st = Returns (resp, st') ∧ db st' = db st ∧
    (path req ≠ "/logout" → st' = st).
Proof.
  unfold do_GET, handle_logout. rewrite !get_session_lookup. cbn.
  repeat case_match; eexists _, _; (split; [done|]); split; try done.
  all: intros Hp; exfalso; apply Hp; by apply String.eqb_eq.
Qed.

(** X6. A session cookie is handed out only by POST /login and POST
    /register-tenant, always with the redirect to /dashboard, and its token
    is then in the registry: it resolves to a session that is the snapshot
    of a user row and of the row of that user's tenant. *)
Theorem session_cookie_registered (m : method) (req : request) (st : state)
    (token location : string) (st' : state) :
  handle_ m req st = Returns (Found302 (Some (SessionCookie token)) location, st') →
  m = M_POST ∧ (path req = "/login" ∨ path req = "/register-tenant") ∧
  location = "/dashboard" ∧
  ∃ s, dict_get token (SESSIONS st') = Some s ∧ session_valid (db st') s ∧
    ∀ req', token_of req' = Some token →
      session_of req' (SESSIONS st') = Returns (Some s).
Proof.
  intros H. split_and!.
  - destruct m; [|done]. exfalso. revert H. unfold handle, do_GET, handle_logout.
    rewrite !get_session_lookup, ?serve_static_spec. cbn.
    repeat case_match; intros [=].
  - destruct m.
    { exfalso. revert H. unfold handle, do_GET, handle_logout.
      rewrite !get_session_lookup, ?serve_static_spec. cbn.
      repeat case_match; intros [=]. }
    revert H. unfold handle, do_POST.
    destruct (String.eqb_spec (path req) "/register-tenant"); [auto|].
    destruct (String.eqb_spec (path req) "/login"); [auto|].
    unfold handle_new_patient. rewrite get_session_lookup. cbn.
    repeat case_match; intros [=].
  - apply handle_effect in H.
    inversion H as [? Hno| | | |]; subst; [by destruct (Hno token location)|done..].
  - apply handle_effect in H.
    assert (∃ s, dict_get token (SESSIONS st') = Some s ∧ session_valid (db st') s)
      as (s & Hget & Hvalid).
    { inversion H as [? Hno| | | |]; subst.
      - by destruct (Hno token location).
      - eexists. split; [cbn; rewrite dict_get_set; by rewrite String.eqb_refl|].
        match goal with |- session_valid _ ?s' =>
          apply (session_valid_rows _
            {| t_id := s_tenant_id s'; t_name := s_tenant_name s' |}
            {| u_id := s_id s'; u_tenant_id := s_tenant_id s';
               u_name := s_user_name s'; u_email := admin_email;
               u_password := admin_password |}) end; cbn;
          [apply elem_of_app; right; left..|done].
      - eexists. split; [cbn; rewrite dict_get_set; by rewrite String.eqb_refl|].
        cbn. by apply session_valid_rows. }
    exists s. split_and!; [done..|].
    intros req' Htok. rewrite get_session_lookup, Htok. cbn. by rewrite Hget.
Qed.

(** X16. From a new database file, where [init_db] creates three empty
    tables, and an empty registry, every sequence of requests is served and
    every state reached is consistent: referential integrity, distinct row
    ids and tenant names, and stored texts that passed the presence checks. *)
Theorem fresh_start_consistent (requests : list (method * request)) :
  ∃ st', serve_ requests (initial_state None) = Returns st' ∧
    references_ok st' ∧ rows_distinct (db st') ∧ fields_ok (db st').
Proof.
  apply (serve_forever_invariant
    (λ st, references_ok st ∧ rows_distinct (db st) ∧ fields_ok (db st))).
  - intros st resp st' He (H1 & H2 & H3).
    split_and!; eauto using effect_references_ok, effect_rows_distinct, effect_fields_ok.
  - unfold references_ok, rows_distinct, fields_ok. cbn.
    split_and!; constructor.
Qed.

End Server.

(** ** Logging in, registering and logging out *)

Lemma find_app_None {A} (f : A → bool) (l1 l2 : list A) :
  (∀ x, x ∈ l1 → f x = false) → find f (l1 ++ l2) = find f l2.
Proof.
  induction l1 as [|x l1 IH]; intros H; simpl; [done|].
  rewrite (H x) by left. apply IH. intros y Hy. apply H. by right.
Qed.

(** No row refers to the id the next tenant gets. *)
Lemma of_tenant_next_rowid (ids : list Z) (l : list patient_row) :
  Forall (λ p, p_tenant_id p ∈ ids) l → of_tenant (next_rowid ids) l = [].
Proof.
  unfold of_tenant. induction 1 as [|p l Hp _ IH]; [done|].
  rewrite filter_cons_False; [done|]. intros Heq. rewrite Heq in Hp.
  by apply next_rowid_fresh in Hp.
Qed.

Section Sessions.

Variable cookie_load : string → outcome (gmap string string).
Variable guess_type : string → string.
Variable root : node.
Variable cwd : list string.
Variable dirname : string.

Abbreviation GET := (do_GET cookie_load guess_type root cwd dirname).
Abbreviation POST := (do_POST cookie_load).
Abbreviation session_of := (get_session cookie_load).
Abbreviation token_of := (presented_token cookie_load).

(** GET /dashboard with a cookie whose token is in the registry. *)
Lemma dashboard_of_token (cookie : option string) (data : form) (token : string)
    (st : state) (session_id : string) (s : session) :
  let req := {| path := "/dashboard"; Cookie := cookie; post_data := data; uuid4 := token |} in
  token_of req = Some session_id →
  dict_get session_id (SESSIONS st) = Some s →
  GET req st =
    Returns (dashboard_page s
               (patient_view_of <$> of_tenant (s_tenant_id s) (patients (db st))), st).
Proof.
  intros req Htok Hget. unfold do_GET. cbn. rewrite get_session_lookup, Htok. cbn.
  rewrite Hget. cbn. by rewrite render_dashboard_page.
Qed.

(** X7. A login with the trimmed name of an existing tenant, the trimmed
    email of a user of that tenant and that user's stored password answers
    with the redirect to /dashboard and a session cookie, leaves the store
    as it was, and registers the token with the user's snapshot; the other
    tokens resolve as before, and a request that presents the token has
    that session. *)
Theorem login_success (cookie : option string) (data : form) (token : string)
    (st : state) (tenant_id user_id : Z) (user_name : string) :
  let req := {| path := "/login"; Cookie := cookie; post_data := data; uuid4 := token |} in
  let tenant_name := strip (field data "tenantName") in
  let email := strip (field data "email") in
  let password := field data "password" in
  let s := {| s_id := user_id; s_user_name := user_name;
              s_tenant_id := tenant_id; s_tenant_name := tenant_name |} in
  tenant_name ≠ "" → email ≠ "" → password ≠ "" →
  select_tenant tenant_name (db st) = Some tenant_id →
  select_user tenant_id email (db st) = Some (user_id, user_name, password) →
  ∃ st', POST req st = Returns (Found302 (Some (SessionCookie token)) "/dashboard", st') ∧
    db st' = db st ∧
    dict_get token (SESSIONS st') = Some s ∧
    (∀ k, k ≠ token → dict_get k (SESSIONS st') = dict_get k (SESSIONS st)) ∧
    (∀ req', token_of req' = Some token →
       session_of req' (SESSIONS st') = Returns (Some s)).
Proof using cookie_load.
  clear guess_type root cwd dirname.
  intros req tenant_name email password s H1%truthy_true H2%truthy_true
    H3%truthy_true Ht Hu.
  unfold do_POST, handle_login, set_session. cbn.
  fold tenant_name email password. rewrite H1, H2, H3. cbn. rewrite Ht, Hu.
  rewrite String.eqb_refl. cbn.
  eexists. split; [done|]. cbn. split_and!.
  - done.
  - rewrite dict_get_set. by rewrite String.eqb_refl.
  - intros k Hk. rewrite dict_get_set.
    by destruct (String.eqb_spec token k) as [->|].
  - intros req' Htok. rewrite get_session_lookup, Htok. cbn.
    rewrite dict_get_set. by rewrite String.eqb_refl.
Qed.

(** X8. A login changes the state only when a user row of the named tenant
    has exactly the submitted email (trimmed) and password: then the token
    is registered for that user and tenant; in every other case the answer
    is a page with status 200 and the state is as before. The store is
    never changed. *)
Theorem login_sound (cookie : option string) (data : form) (token : string)
    (st : state) (resp : response) (st' : state) :
  let req := {| path := "/login"; Cookie := cookie; post_data := data; uuid4 := token |} in
  POST req st = Returns (resp, st') →
  (∃ body, resp = Ok200 body ∧ st' = st) ∨
  (resp = Found302 (Some (SessionCookie token)) "/dashboard" ∧
   ∃ t u, t ∈ tenants (db st) ∧ u ∈ users (db st) ∧
     t_name t = strip (field data "tenantName") ∧
     u_tenant_id u = t_id t ∧
     u_email u = strip (field data "email") ∧
     u_password u = field data "password" ∧
     st' = {| db := db st;
              SESSIONS :=
                dict_set token
                  {| s_id := u_id u; s_user_name := u_name u;
                     s_tenant_id := t_id t; s_tenant_name := t_name t |}
                  (SESSIONS st) |}).
Proof using cookie_load.
  clear guess_type root cwd dirname.
  intros req. unfold do_POST, handle_login, set_session, error_page, respond. cbn.
  destruct (_ || _); [intros [= <- <-]; left; eauto|].
  destruct (select_tenant _ _) as [tenant_id|] eqn:Ht;
    [|intros [= <- <-]; left; eauto].
  destruct (select_user _ _ _) as [[[user_id user_name] stored]|] eqn:Hu;
    [|intros [= <- <-]; left; eauto].
  destruct (String.eqb_spec stored (field data "password")) as [Hpw|]; cbn;
    intros [= <- <-]; [|left; eauto].
  right. split; [done|].
  apply select_tenant_Some in Ht as (t & Htin & Htn & <-).
  apply select_user_Some in Hu as (u & Huin & Hut & Hue & <- & <- & Hup).
  exists t, u. split_and!; try done; [congruence|]. by rewrite Htn.
Qed.

(** X9. On a state with referential integrity, registering a tenant whose
    name is new answers with the redirect and a session cookie, and a login
    with the same tenant name, email and password then succeeds with the
    same session: the admin of the new tenant. *)
Theorem register_then_login (cookie cookie' : option string) (data data' : form)
    (token token' : string) (st : state) :
  let req := {| path := "/register-tenant"; Cookie := cookie; post_data := data; uuid4 := token |} in
  let req' := {| path := "/login"; Cookie := cookie'; post_data := data'; uuid4 := token' |} in
  let tenant_name := strip (field data "tenantName") in
  let admin_name := strip (field data "adminName") in
  let admin_email := strip (field data "adminEmail") in
  let admin_password := field data "adminPassword" in
  references_ok st →
  tenant_name ≠ "" → admin_name ≠ "" → admin_email ≠ "" → admin_password ≠ "" →
  tenant_name ∉ t_name <$> tenants (db st) →
  strip (field data' "tenantName") = tenant_name →
  strip (field data' "email") = admin_email →
  field data' "password" = admin_password →
  ∃ st1 st2 s,
    POST req st = Returns (Found302 (Some (SessionCookie token)) "/dashboard", st1) ∧
    POST req' st1 = Returns (Found302 (Some (SessionCookie token')) "/dashboard", st2) ∧
    dict_get token (SESSIONS st1) = Some s ∧
    dict_get token' (SESSIONS st2) = Some s ∧
    s_user_name s = admin_name ∧ s_tenant_name s = tenant_name ∧
    db st2 = db st1.
Proof using cookie_load.
  clear guess_type root cwd dirname.
  intros req req' tenant_name admin_name admin_email admin_password
    (Hfk & _ & _ & _) H1 H2 H3 H4 Hnew E1 E2 E3.
  pose proof (register_tenant_valid cookie_load cookie data token st H1 H2 H3 H4) as Hreg.
  cbn zeta in Hreg. fold req tenant_name admin_name admin_email admin_password in Hreg.
  assert (Hex : existsb (λ t, String.eqb (t_name t) tenant_name) (tenants (db st)) = false).
  { apply not_true_iff_false. intros (t & Hin & Ht)%existsb_exists.
    apply Hnew, list_elem_of_fmap. exists t.
    split; [symmetry; by apply String.eqb_eq|by apply list_elem_of_In]. }
  rewrite Hex in Hreg. cbn zeta in Hreg.
  set (tenant_id := next_rowid (t_id <$> tenants (db st))) in *.
  set (user_id := next_rowid (u_id <$> users (db st))) in *.
  set (s := {| s_id := user_id; s_user_name := admin_name;
               s_tenant_id := tenant_id; s_tenant_name := tenant_name |}) in *.
  eexists _, _, s. split; [exact Hreg|].
  apply truthy_true in H1, H3, H4.
  unfold do_POST, handle_login, set_session. cbn.
  rewrite E1, E2, E3, H1, H3, H4. cbn.
  unfold select_tenant, select_user. cbn.
  rewrite find_app_None; cycle 1.
  { intros t Ht. apply String.eqb_neq. intros Heq. apply Hnew.
    apply list_elem_of_fmap. by exists t. }
  cbn. rewrite String.eqb_refl. cbn.
  rewrite find_app_None; cycle 1.
  { intros u Hu. apply andb_false_iff. left. apply Z.eqb_neq. intros Heq.
    apply (proj1 (Forall_forall _ _) Hfk) in Hu. rewrite Heq in Hu.
    by apply next_rowid_fresh in Hu. }
  cbn. rewrite Z.eqb_refl, !String.eqb_refl. cbn. rewrite String.eqb_refl. cbn.
  split; [done|]. cbn. rewrite !dict_get_set, !String.eqb_refl. by split_and!.
Qed.

(** X10. On a state with referential integrity, the dashboard of a tenant
    that has just been registered is empty: a request that presents the new
    token gets the dashboard page of the admin with no patient. *)
Theorem new_tenant_dashboard_empty (cookie cookie' : option string) (data data' : form)
    (token token' : string) (st : state) :
  let req := {| path := "/register-tenant"; Cookie := cookie; post_data := data; uuid4 := token |} in
  let req' := {| path := "/dashboard"; Cookie := cookie'; post_data := data'; uuid4 := token' |} in
  let tenant_name := strip (field data "tenantName") in
  let admin_name := strip (field data "adminName") in
  references_ok st →
  tenant_name ≠ "" → admin_name ≠ "" → strip (field data "adminEmail") ≠ "" →
  field data "adminPassword" ≠ "" →
  tenant_name ∉ t_name <$> tenants (db st) →
  token_of req' = Some token →
  ∃ st1 s,
    POST req st = Returns (Found302 (Some (SessionCookie token)) "/dashboard", st1) ∧
    s_user_name s = admin_name ∧ s_tenant_name s = tenant_name ∧
    GET req' st1 = Returns (dashboard_page s [], st1).
Proof.
  intros req req' tenant_name admin_name (_ & Hfk & _ & _) H1 H2 H3 H4 Hnew Htok.
  pose proof (register_tenant_valid cookie_load cookie data token st H1 H2 H3 H4) as Hreg.
  cbn zeta in Hreg. fold req tenant_name admin_name in Hreg.
  assert (Hex : existsb (λ t, String.eqb (t_name t) tenant_name) (tenants (db st)) = false).
  { apply not_true_iff_false. intros (t & Hin & Ht)%existsb_exists.
    apply Hnew, list_elem_of_fmap. exists t.
    split; [symmetry; by apply String.eqb_eq|by apply list_elem_of_In]. }
  rewrite Hex in Hreg. cbn zeta in Hreg.
  eexists _, {| s_id := next_rowid (u_id <$> users (db st));
                s_user_name := admin_name;
                s_tenant_id := next_rowid (t_id <$> tenants (db st));
                s_tenant_name := tenant_name |}.
  split; [exact Hreg|]. split_and!; [done..|]. unfold req' in *.
  erewrite dashboard_of_token; [|exact Htok|cbn; by rewrite dict_get_set, String.eqb_refl].
  cbn. by rewrite of_tenant_next_rowid.
Qed.

End Sessions.

(** ** Logging out *)

Lemma dict_del_absent {V} (k : string) (d : dict V) : k ∉ d.*1 → dict_del k d = d.
Proof.
  induction d as [|[k0 v0] d IH]; csimpl; [done|]. intros Hk.
  apply not_elem_of_cons in Hk as [Hne Hk].
  destruct (String.eqb_spec k0 k) as [->|]; [done|]. by rewrite IH.
Qed.

Lemma dict_del_middle {V} (k : string) (v : V) (l1 l2 : dict V) :
  NoDup (l1 ++ (k, v) :: l2).*1 → dict_del k (l1 ++ (k, v) :: l2) = l1 ++ l2.
Proof.
  rewrite fmap_app. csimpl. intros (H1 & Hdisj & H2)%NoDup_app.
  apply NoDup_cons in H2 as [Hk2 _].
  assert (Hk1 : k ∉ l1.*1) by (intros Hin; apply (Hdisj k Hin); left).
  clear Hdisj H1. induction l1 as [|[k0 v0] l1 IH]; csimpl.
  - rewrite String.eqb_refl. by apply dict_del_absent.
  - apply not_elem_of_cons in Hk1 as [Hne Hk1].
    destruct (String.eqb_spec k0 k) as [->|]; [done|]. by rewrite IH.
Qed.

(** The loop deletes the key of the first entry of the user. *)
Lemma logout_loop_first (items : list (string * session)) (user_id : Z)
    (sessions : dict session) (k : string) (d : session) :
  (k, d) ∈ items → s_id d = user_id →
  ∃ l1 sid data l2, items = l1 ++ (sid, data) :: l2 ∧ s_id data = user_id ∧
    Forall (λ e, s_id e.2 ≠ user_id) l1 ∧
    logout_loop items user_id sessions = dict_del sid sessions.
Proof.
  induction items as [|[sid data] items IH]; [by intros ?%elem_of_nil|].
  intros Hin Hid. simpl. destruct (Z.eqb_spec (s_id data) user_id) as [Heq|Hne].
  - by exists [], sid, data, items.
  - apply elem_of_cons in Hin as [[= -> ->]|Hin]; [done|].
    destruct (IH Hin Hid) as (l1 & sid' & data' & l2 & -> & ? & ? & ->).
    exists ((sid, data) :: l1), sid', data', l2. split_and!; try done.
    by constructor.
Qed.

Section Logout.

Variable cookie_load : string → outcome (gmap string string).
Variable guess_type : string → string.
Variable root : node.
Variable cwd : list string.
Variable dirname : string.

Abbreviation handle_ := (handle cookie_load guess_type root cwd dirname).
Abbreviation GET := (do_GET cookie_load guess_type root cwd dirname).
Abbreviation POST := (do_POST cookie_load).
Abbreviation session_of := (get_session cookie_load).
Abbreviation token_of := (presented_token cookie_load).

(** X11. With a valid session, GET /logout removes exactly one entry of
    the registry: the first entry, in insertion order, whose user id is the
    session's. The entries before and after it stay, in their order. *)
Theorem logout_removes_first (cookie : option string) (data : form) (token : string)
    (st : state) (session : session) :
  let req := {| path := "/logout"; Cookie := cookie; post_data := data; uuid4 := token |} in
  NoDup (SESSIONS st).*1 →
  session_of req (SESSIONS st) = Returns (Some session) →
  ∃ l1 sid first l2,
    SESSIONS st = l1 ++ (sid, first) :: l2 ∧
    s_id first = s_id session ∧
    Forall (λ e, s_id e.2 ≠ s_id session) l1 ∧
    GET req st = Returns (Found302 (Some ExpiredCookie) "/",
                          {| db := db st; SESSIONS := l1 ++ l2 |}).
Proof.
  intros req Hnd Hs. rewrite get_session_lookup in Hs. injection Hs as Hs.
  destruct (token_of req) as [tok|] eqn:Htok; [|done]. cbn in Hs.
  apply dict_get_Some_elem in Hs.
  destruct (logout_loop_first (SESSIONS st) (s_id session) (SESSIONS st) tok session Hs eq_refl)
    as (l1 & sid & first & l2 & HS & Hid & Hl1 & Hloop).
  exists l1, sid, first, l2. split_and!; try done.
  unfold do_GET, handle_logout. cbn. rewrite !get_session_lookup, Htok. cbn.
  apply dict_get_elem in Hs; [|done]. rewrite Hs. cbn. rewrite Hloop.
  rewrite HS at 1. rewrite dict_del_middle; [done|]. by rewrite <- HS.
Qed.

(** X12. When the session of the request is the only one of its user,
    GET /logout removes the presented token: its lookup fails afterwards,
    and GET /dashboard with the same cookie is redirected to /login. *)
Theorem logout_single_session (cookie : option string) (data : form) (token : string)
    (st : state) (session_id : string) (session : session) :
  let req p := {| path := p; Cookie := cookie; post_data := data; uuid4 := token |} in
  NoDup (SESSIONS st).*1 →
  token_of (req "/logout") = Some session_id →
  dict_get session_id (SESSIONS st) = Some session →
  (∀ k d, dict_get k (SESSIONS st) = Some d → s_id d = s_id session → k = session_id) →
  ∃ st', GET (req "/logout") st = Returns (Found302 (Some ExpiredCookie) "/", st') ∧
    SESSIONS st' = dict_del session_id (SESSIONS st) ∧
    dict_get session_id (SESSIONS st') = None ∧
    session_of (req "/dashboard") (SESSIONS st') = Returns None ∧
    GET (req "/dashboard") st' = Returns (Found302 None "/login", st').
Proof.
  intros req Hnd Htok Hget Hone.
  assert (Htok' : token_of (req "/dashboard") = Some session_id) by exact Htok.
  pose proof (dict_get_Some_elem _ _ _ Hget) as Hin.
  destruct (logout_loop_first (SESSIONS st) (s_id session) (SESSIONS st)
              session_id session Hin eq_refl)
    as (l1 & sid & first & l2 & HS & Hid & _ & Hloop).
  assert (sid = session_id) as ->.
  { apply (Hone sid first); [|done]. apply dict_get_elem; [done|].
    rewrite HS. apply elem_of_app. right. left. }
  eexists. split.
  { unfold do_GET, handle_logout. cbn. rewrite !get_session_lookup, Htok. cbn.
    rewrite Hget. cbn. by rewrite Hloop. }
  cbn. assert (Hgone : dict_get session_id (dict_del session_id (SESSIONS st)) = None).
  { rewrite dict_get_del. by rewrite String.eqb_refl. }
  split_and!; [done..| |].
  - rewrite get_session_lookup, Htok'. cbn. by rewrite Hgone.
  - unfold do_GET. cbn. rewrite get_session_lookup, Htok'. cbn. by rewrite Hgone.
Qed.

(** X13. A cookie that gives no session (a header the parser rejects, no
    session_id cookie, or an unknown token) counts as no cookie: on every
    route the response and the state are those of the same request without
    a Cookie header. *)
Theorem invalid_session_as_no_cookie (m : method) (req : request) (st : state) :
  session_of req (SESSIONS st) = Returns None →
  handle_ m req st =
  handle_ m {| path := path req; Cookie := None; post_data := post_data req;
               uuid4 := uuid4 req |} st.
Proof.
  intros Hs. rewrite get_session_lookup in Hs. injection Hs as Hs.
  destruct m; unfold handle, do_GET, do_POST, handle_logout, handle_new_patient.
  - cbn [path]. destruct (startswith _ _); [done|].
    rewrite !get_session_lookup. rewrite Hs. by cbn.
  - cbn [path].
    destruct (String.eqb (path req) "/register-tenant"); [done|].
    destruct (String.eqb (path req) "/login"); [done|].
    destruct (String.eqb (path req) "/patients/new"); [|done].
    rewrite !get_session_lookup. rewrite Hs. by cbn.
Qed.

(** X14. With a valid session, POST /patients/new answers with the form
    and the error "Name is required.", and stores nothing, exactly when the
    name is empty after trimming, as a name of white space alone is. *)
Theorem patient_name_required (cookie : option string) (data : form) (token : string)
    (st : state) (session : session) :
  let req := {| path := "/patients/new"; Cookie := cookie; post_data := data; uuid4 := token |} in
  let required := Ok200 (render_template "new_patient.html"
    [("user", PySession session); ("error", PyStr "Name is required.")]) in
  session_of req (SESSIONS st) = Returns (Some session) →
  (strip (field data "name") = "" ↔ POST req st = Returns (required, st)) ∧
  (forallb is_space (list_ascii_of_string (field data "name")) = true →
   POST req st = Returns (required, st)).
Proof using cookie_load.
  clear guess_type root cwd dirname.
  intros req required Hs.
  assert (Hiff : strip (field data "name") = "" ↔ POST req st = Returns (required, st)).
  { unfold do_POST, handle_new_patient. cbn. rewrite Hs. cbn.
    destruct (truthy _) eqn:Hn; cbn.
    - apply truthy_true in Hn. split; [done|]. intros [=].
    - apply truthy_false in Hn. done. }
  split; [done|]. intros Hsp. apply Hiff. by apply strip_spaces.
Qed.

End Logout.

(** ** Static files below the public directory *)

Lemma str_app_assoc (a b c : string) : ((a ++ b) ++ c = a ++ (b ++ c))%string.
Proof.
  induction a as [|x a IH]; [done|].
  change (String x ((a ++ b) ++ c) = String x (a ++ (b ++ c)))%string.
  by rewrite IH.
Qed.

Lemma startswith_app (s p : string) :
  startswith s p = true → ∃ rest, s = (p ++ rest)%string.
Proof.
  unfold startswith. revert s. induction p as [|c p IH]; intros s H.
  - by exists s.
  - destruct s as [|d s]; [discriminate H|]. cbn [String.prefix] in H.
    destruct (ascii_dec c d) as [->|]; [|discriminate H].
    destruct (IH s H) as (rest & ->). by exists rest.
Qed.

Lemma split_on_cons (sep : ascii) (s : string) :
  ∃ x xs, split_on sep s = x :: xs.
Proof.
  induction s as [|c s (x & xs & IH)]; simpl; [eauto|].
  destruct (Ascii.eqb c sep); [eauto|]. rewrite IH. eauto.
Qed.

(** Splitting at a separator splits the two sides of it. *)
Lemma split_on_app (sep : ascii) (a b : string) :
  split_on sep (a ++ String sep b)%string = split_on sep a ++ split_on sep b.
Proof.
  induction a as [|c a IH]; simpl.
  - by rewrite Ascii.eqb_refl.
  - destruct (Ascii.eqb c sep); [by rewrite IH|]. rewrite IH.
    by destruct (split_on_cons sep a) as (x & xs & ->).
Qed.

Lemma foldl_walk_None (root : node) (comps : list string) :
  foldl (walk_step root) None comps = None.
Proof. by induction comps. Qed.

(** Without a parent-directory component, resolution only goes down. *)
Lemma foldl_walk_extends (root : node) (comps : list string) (rloc rloc' : list string) :
  ".." ∉ comps →
  foldl (walk_step root) (Some rloc) comps = Some rloc' →
  ∃ ext, rloc' = ext ++ rloc.
Proof.
  revert rloc. induction comps as [|comp comps IH]; intros rloc Hno; simpl.
  - intros [= <-]. by exists [].
  - apply not_elem_of_cons in Hno as [Hne Hno].
    destruct (node_at root (rev rloc)) as [[|entries]|];
      try (rewrite foldl_walk_None; done).
    destruct (String.eqb comp "" || String.eqb comp "."); [by apply IH|].
    destruct (String.eqb_spec comp "..") as [->|_]; [done|].
    destruct (dict_get comp entries); [|rewrite foldl_walk_None; done].
    intros (ext & ->)%IH; [|done]. exists (ext ++ [comp]).
    by rewrite <- app_assoc.
Qed.

Lemma prefix_nil (s : string) : String.prefix "" s = true.
Proof. by destruct s. Qed.

Lemma resolve_app (root : node) (cwd : list string) (p rest : string) :
  p ≠ "" →
  resolve root cwd (p ++ String "/" rest)%string =
    match resolve root cwd p with
    | Some loc =>
        (λ rloc, rev rloc) <$> foldl (walk_step root) (Some (rev loc)) (split_slash rest)
    | None => None
    end.
Proof.
  intros Hp. destruct p as [|c p]; [done|]. unfold resolve.
  assert (Hstart : startswith (String c p ++ String "/" rest)%string "/" =
                   startswith (String c p) "/").
  { unfold startswith.
    change (String c p ++ String "/" rest)%string
      with (String c (p ++ String "/" rest)%string).
    cbn [String.prefix]. destruct (ascii_dec "/" c); [|done].
    by rewrite !prefix_nil. }
  rewrite Hstart. unfold split_slash. rewrite split_on_app, foldl_app.
  change (String c p ++ String "/" rest)%string
    with (String c (p ++ String "/" rest)%string).
  cbn [String.eqb].
  destruct (foldl _ _ (split_on "/" (String c p))) as [rloc|]; cbn.
  - by rewrite rev_involutive.
  - by rewrite foldl_walk_None.
Qed.

Lemma path_join_public (dirname rest : string) :
  path_join dirname ("public/" ++ rest)%string =
    (PUBLIC_DIR dirname ++ String "/" rest)%string.
Proof.
  unfold PUBLIC_DIR, path_join. cbn [startswith String.prefix append].
  destruct (ascii_dec _ _) as [|_]; [done|].
  destruct (String.eqb dirname "" || ends_with_slash dirname);
    by rewrite !str_app_assoc.
Qed.

Lemma PUBLIC_DIR_nonempty (dirname : string) : PUBLIC_DIR dirname ≠ "".
Proof.
  unfold PUBLIC_DIR, path_join. cbn [startswith String.prefix].
  destruct (ascii_dec _ _) as [|_]; [done|].
  destruct (String.eqb dirname "" || ends_with_slash dirname);
    by destruct dirname.
Qed.

(** X15. A request path below /public/ without a parent-directory
    component is served from the public directory: when the answer is 200
    with the contents of a file, the public directory exists and the file
    is a regular file at a location inside it. *)
Theorem serve_static_contained (guess_type : string → string) (root : node)
    (cwd : list string) (dirname path content_type body : string) :
  startswith path "/public/" = true →
  ".." ∉ split_slash path →
  serve_static guess_type root cwd dirname path = File200 content_type body →
  ∃ pub loc,
    resolve root cwd (PUBLIC_DIR dirname) = Some pub ∧
    resolve root cwd (path_join dirname (lstrip_slash path)) = Some loc ∧
    node_at root loc = Some (File body) ∧
    inside pub loc = true.
Proof.
  intros (rest & ->)%startswith_app Hno. rewrite serve_static_spec. cbn zeta.
  change (lstrip_slash ("/public/" ++ rest)%string) with ("public/" ++ rest)%string.
  rewrite path_join_public.
  change ("/public/" ++ rest)%string with ("" ++ String "/" ("public" ++ String "/" rest))%string in Hno.
  unfold split_slash in Hno. rewrite !split_on_app in Hno.
  apply not_elem_of_app in Hno as [_ [_ Hno]%not_elem_of_app].
  rewrite resolve_app by apply PUBLIC_DIR_nonempty.
  destruct (resolve root cwd (PUBLIC_DIR dirname)) as [pub|]; [|done].
  destruct (foldl _ _ _) as [rloc|] eqn:Hwalk; [|done]. cbn.
  destruct (node_at root (rev rloc)) as [[data|]|] eqn:Hnode; try done.
  intros [= _ <-]. exists pub, (rev rloc). split_and!; try done.
  apply foldl_walk_extends in Hwalk as (ext & ->); [|done].
  unfold inside. apply bool_decide_eq_true.
  rewrite rev_app_distr, rev_involutive. apply take_app_length.
Qed.

(** ** Instances of the further theorems *)

Lemma references_kept_witness :
  references_ok example_state ∧
  ∃ st', example_serve example_requests example_state = Returns st' ∧ references_ok st'.
Proof.
  assert (H : references_ok example_state)
    by (unfold references_ok, session_valid; compute_done).
  split; [exact H|].
  exact (references_kept example_cookie_load example_guess_type example_root
           example_cwd example_dirname example_requests example_state H).
Defined.

Lemma rows_distinct_kept_witness :
  rows_distinct (db example_state) ∧
  ∃ st', example_serve example_requests example_state = Returns st' ∧
    rows_distinct (db st').
Proof.
  assert (H : rows_distinct (db example_state)) by (unfold rows_distinct; compute_done).
  split; [exact H|].
  exact (rows_distinct_kept example_cookie_load example_guess_type example_root
           example_cwd example_dirname example_requests example_state H).
Defined.

Lemma fields_kept_witness :
  fields_ok (db example_state) ∧
  ∃ st', example_serve example_requests example_state = Returns st' ∧
    fields_ok (db st').
Proof.
  assert (H : fields_ok (db example_state))
    by (unfold fields_ok, trimmed; compute_done).
  split; [exact H|].
  exact (fields_kept example_cookie_load example_guess_type example_root
           example_cwd example_dirname example_requests example_state H).
Defined.

Lemma session_cookie_registered_witness :
  ∃ s, dict_get "t5" [("t1", al); ("t2", al); ("t3", bo); ("t5", al)] = Some s ∧
    session_valid example_db s.
Proof.
  destruct (session_cookie_registered example_cookie_load example_guess_type
              example_root example_cwd example_dirname M_POST
              (post "/login" None
                 [("tenantName", "Acme"); ("email", "al@acme.test"); ("password", "pw")] "t5")
              example_state "t5" "/dashboard"
              {| db := example_db;
                 SESSIONS := [("t1", al); ("t2", al); ("t3", bo); ("t5", al)] |})
    as (_ & _ & _ & s & Hget & Hvalid & _); [by vm_compute|].
  exists s. split; [exact Hget|exact Hvalid].
Defined.

Lemma login_success_witness :
  ∃ st', example_POST (post "/login" None
           [("tenantName", " Acme"); ("email", "al@acme.test "); ("password", "pw")] "t5")
           example_state =
         Returns (Found302 (Some (SessionCookie "t5")) "/dashboard", st') ∧
    dict_get "t5" (SESSIONS st') = Some al.
Proof.
  destruct (login_success example_cookie_load None
              (post_data (post "/login" None
                 [("tenantName", " Acme"); ("email", "al@acme.test "); ("password", "pw")] "t5"))
              "t5" example_state 1 1 "Al")
    as (st' & Hpost & _ & Hget & _); [by vm_compute..|].
  exists st'. split; [exact Hpost|exact Hget].
Defined.

Lemma login_sound_witness :
  let data := post_data (post "/login" None
    [("tenantName", "Acme"); ("email", "al@acme.test"); ("password", "PW")] "t5") in
  (∃ body, error_page "login.html" "Invalid credentials." = Ok200 body ∧
           example_state = example_state) ∨
  (error_page "login.html" "Invalid credentials." =
     Found302 (Some (SessionCookie "t5")) "/dashboard" ∧
   ∃ t u, t ∈ tenants example_db ∧ u ∈ users example_db ∧
     t_name t = strip (field data "tenantName") ∧
     u_tenant_id u = t_id t ∧
     u_email u = strip (field data "email") ∧
     u_password u = field data "password" ∧
     example_state =
       {| db := example_db;
          SESSIONS :=
            dict_set "t5"
              {| s_id := u_id u; s_user_name := u_name u;
                 s_tenant_id := t_id t; s_tenant_name := t_name t |}
              (SESSIONS example_state) |}).
Proof.
  intros data.
  apply (login_sound example_cookie_load None data "t5" example_state
           (error_page "login.html" "Invalid credentials.") example_state).
  by vm_compute.
Defined.

Lemma register_then_login_witness :
  let data := post_data (post "/register-tenant" None
    [("tenantName", " Echo "); ("adminName", "Eve"); ("adminEmail", "eve@echo.test");
     ("adminPassword", "e")] "t4") in
  let data' := post_data (post "/login" None
    [("tenantName", "Echo"); ("email", "eve@echo.test"); ("password", "e")] "t6") in
  ∃ st1 st2 s,
    example_POST {| path := "/register-tenant"; Cookie := None; post_data := data;
                    uuid4 := "t4" |} example_state =
      Returns (Found302 (Some (SessionCookie "t4")) "/dashboard", st1) ∧
    example_POST {| path := "/login"; Cookie := None; post_data := data';
                    uuid4 := "t6" |} st1 =
      Returns (Found302 (Some (SessionCookie "t6")) "/dashboard", st2) ∧
    dict_get "t6" (SESSIONS st2) = Some s ∧ s_tenant_name s = "Echo".
Proof.
  intros data data'.
  destruct (register_then_login example_cookie_load None None data data' "t4" "t6"
              example_state)
    as (st1 & st2 & s & H1 & H2 & _ & H3 & _ & H4 & _).
  - unfold references_ok, session_valid. compute_done.
  - by vm_compute.
  - by vm_compute.
  - by vm_compute.
  - by vm_compute.
  - compute_done.
  - reflexivity.
  - reflexivity.
  - reflexivity.
  - exists st1, st2, s. split_and!; [exact H1|exact H2|exact H3|exact H4].
Defined.

Lemma new_tenant_dashboard_empty_witness :
  let data := post_data (post "/register-tenant" None
    [("tenantName", " Echo "); ("adminName", "Eve"); ("adminEmail", "eve@echo.test");
     ("adminPassword", "e")] "t4") in
  ∃ st1 s,
    example_POST {| path := "/register-tenant"; Cookie := None; post_data := data;
                    uuid4 := "t4" |} example_state =
      Returns (Found302 (Some (SessionCookie "t4")) "/dashboard", st1) ∧
    example_GET (get "/dashboard" (Some "session_id=t4")) st1 =
      Returns (dashboard_page s [], st1).
Proof.
  intros data.
  destruct (new_tenant_dashboard_empty example_cookie_load example_guess_type
              example_root example_cwd example_dirname None (Some "session_id=t4")
              data ∅ "t4" "" example_state)
    as (st1 & s & H1 & _ & _ & H2).
  - unfold references_ok, session_valid. compute_done.
  - by vm_compute.
  - by vm_compute.
  - by vm_compute.
  - by vm_compute.
  - compute_done.
  - by vm_compute.
  - exists st1, s. split; [exact H1|exact H2].
Defined.

Lemma logout_removes_first_witness :
  ∃ l1 sid first l2,
    SESSIONS example_state = l1 ++ (sid, first) :: l2 ∧
    example_GET (get "/logout" (Some "session_id=t2")) example_state =
      Returns (Found302 (Some ExpiredCookie) "/",
               {| db := example_db; SESSIONS := l1 ++ l2 |}).
Proof.
  destruct (logout_removes_first example_cookie_load example_guess_type example_root
              example_cwd example_dirname (Some "session_id=t2") ∅ "" example_state al)
    as (l1 & sid & first & l2 & H1 & _ & _ & H2).
  - compute_done.
  - by vm_compute.
  - exists l1, sid, first, l2. split; [exact H1|exact H2].
Defined.

Lemma logout_single_session_witness :
  ∃ st', example_GET (get "/logout" (Some "session_id=t3")) example_state =
           Returns (Found302 (Some ExpiredCookie) "/", st') ∧
    example_GET (get "/dashboard" (Some "session_id=t3")) st' =
      Returns (Found302 None "/login", st').
Proof.
  destruct (logout_single_session example_cookie_load example_guess_type example_root
              example_cwd example_dirname (Some "session_id=t3") ∅ "" example_state
              "t3" bo)
    as (st' & H1 & _ & _ & _ & H2).
  - compute_done.
  - by vm_compute.
  - reflexivity.
  - intros k d H Hid. unfold example_state in H. cbn [SESSIONS dict_get] in H.
    destruct (String.eqb_spec "t1" k); [injection H as <-; discriminate Hid|].
    destruct (String.eqb_spec "t2" k); [injection H as <-; discriminate Hid|].
    destruct (String.eqb_spec "t3" k); [done|discriminate H].
  - exists st'. split; [exact H1|exact H2].
Defined.

Lemma invalid_session_as_no_cookie_witness :
  example_handle M_GET (get "/dashboard" (Some "a,b=c; session_id=t3")) example_state =
  example_handle M_GET (get "/dashboard" None) example_state.
Proof.
  apply (invalid_session_as_no_cookie example_cookie_load example_guess_type
           example_root example_cwd example_dirname M_GET
           (get "/dashboard" (Some "a,b=c; session_id=t3")) example_state).
  by vm_compute.
Defined.

Lemma patient_name_required_witness :
  let data := post_data (post "/patients/new" None [("name", "   ")] "") in
  example_POST {| path := "/patients/new"; Cookie := Some "session_id=t1";
                  post_data := data; uuid4 := "" |} example_state =
    Returns (Ok200 (render_template "new_patient.html"
                      [("user", PySession al); ("error", PyStr "Name is required.")]),
             example_state).
Proof.
  intros data.
  apply (patient_name_required example_cookie_load (Some "session_id=t1") data ""
           example_state al); by vm_compute.
Defined.

Lemma serve_static_contained_witness :
  ∃ pub loc,
    resolve example_root example_cwd (PUBLIC_DIR example_dirname) = Some pub ∧
    resolve example_root example_cwd
      (path_join example_dirname (lstrip_slash "/public/./style.css")) = Some loc ∧
    node_at example_root loc = Some (File "body { margin: 0 }") ∧
    inside pub loc = true.
Proof.
  apply (serve_static_contained example_guess_type example_root example_cwd
           example_dirname "/public/./style.css" "application/octet-stream"
           "body { margin: 0 }").
  - reflexivity.
  - compute_done.
  - by vm_compute.
Defined.
